(** * Adapter mixins for BERT: a shallow embedding of
      [src/adapter_transformers/mixins/bert.py]

    The mixins of this file are wiring code: every method reads and writes
    attributes of Python objects, calls a collaborator that lives in another
    module of the package, or registers a hook on a [torch] module.  The
    embedding therefore consists of

    - a small Python object store (objects with an attribute dictionary, an
      optional item sequence and an optional list of forward-pre hooks),
    - a state-and-exception monad over that store, together with a ghost log
      of the collaborator calls and hook registrations the mixins perform,
    - one Rocq definition per method of the source, inside a module named
      after the class that owns it. *)

From stdpp Require Import gmap strings list fin_maps.

Open Scope string_scope.
Open Scope list_scope.

(** ** Python values and objects *)

Definition loc := nat.

Inductive Value :=
| VNone
| VBool (b : bool)
| VInt (z : Z)
| VStr (s : string)
| VRef (l : loc).

#[global] Instance Value_eq_dec : EqDecision Value.
Proof. solve_decision. Defined.

(** A forward-pre hook stored on a module.  [ParallelHook] is the closure
    [hook] built by [_set_layer_hook_for_parallel]; it captures no variable,
    so all its instances behave alike.  Hooks registered by other code are
    [ForeignHook]s. *)
Inductive Hook :=
| ParallelHook
| ForeignHook (id : nat).

#[global] Instance Hook_eq_dec : EqDecision Hook.
Proof. solve_decision. Defined.

(** An object: its class name, its attribute dictionary, its items when it is
    a sequence (a tuple, an [nn.ModuleList]) and its forward-pre hooks when it
    is an [nn.Module]. *)
Record Obj := mkObj {
  cls : string;
  attrs : gmap string Value;
  items : option (list Value);
  pre_hooks : option (list Hook)
}.

Abbreviation Heap := (gmap loc Obj).

(** Python truth value of [None], booleans, integers and strings.  The truth
    value of an object depends on its [__bool__] or [__len__], which the
    store does not record: a reference counts as true, as it is for a module
    that defines neither.  The properties that depend on the truth value of
    a flag or of a key are stated for values that are not references. *)
Definition truthy (v : Value) : bool :=
  match v with
  | VNone => false
  | VBool b => b
  | VInt z => negb (Z.eqb z 0)
  | VStr s => negb (String.eqb s "")
  | VRef _ => true
  end.

(** ** Outcomes, the ghost log and the monad *)

Inductive Error :=
| AttributeError
| TypeError
| IndexError
| ExternalError (tag : string).

(** What the mixins of this file do to the outside: a call of a collaborator
    defined in another module, or a hook registration on a module. *)
Inductive Event :=
| EvCall (fn : string) (args : list Value)
| EvRegisterPreHook (layer : Value) (hk : Hook).

#[global] Instance Event_eq_dec : EqDecision Event.
Proof. solve_decision. Defined.

Record State := mkState {
  heap : Heap;
  trace : list Event
}.

(** A computation returns a value, raises (the store keeps every write made
    before the exception), or runs out of the fuel given to a loop. *)
Inductive Outcome (S A : Type) :=
| Ok (a : A) (s : S)
| Raise (e : Error) (s : S)
| Timeout.
Arguments Ok {S A} a s.
Arguments Raise {S A} e s.
Arguments Timeout {S A}.

Definition M (A : Type) : Type := State → Outcome State A.

(** A collaborator defined elsewhere acts on the store only. *)
Definition Ext (A : Type) : Type := Heap → Outcome Heap A.

Definition ret {A} (a : A) : M A := fun s => Ok a s.

Definition bind {A B} (m : M A) (k : A → M B) : M B :=
  fun s =>
    match m s with
    | Ok a s' => k a s'
    | Raise e s' => Raise e s'
    | Timeout => Timeout
    end.

Definition raise {A} (e : Error) : M A := fun s => Raise e s.

Declare Scope py_scope.
Delimit Scope py_scope with py.
Notation "x <- m ;; k" := (bind m (fun x => k))
  (at level 100, m at next level, right associativity) : py_scope.
Notation "m ;; k" := (bind m (fun _ => k))
  (at level 100, right associativity) : py_scope.
Open Scope py_scope.

Definition log (e : Event) : M unit :=
  fun s => Ok tt (mkState (heap s) (trace s ++ [e])).

(** [call fn args f]: call the collaborator [fn]; the call is logged, then
    [f] runs on the store. *)
Definition call {A} (fn : string) (args : list Value) (f : Ext A) : M A :=
  fun s =>
    let t := trace s ++ [EvCall fn args] in
    match f (heap s) with
    | Ok a h' => Ok a (mkState h' t)
    | Raise e h' => Raise e (mkState h' t)
    | Timeout => Timeout
    end.

(** ** Attribute access, allocation, indexing *)

Definition lookup_attr (h : Heap) (v : Value) (name : string) : option Value :=
  match v with
  | VRef l => o ← h !! l; attrs o !! name
  | _ => None
  end.

Definition set_attr (o : Obj) (name : string) (x : Value) : Obj :=
  mkObj (cls o) (<[name := x]> (attrs o)) (items o) (pre_hooks o).

(** [obj.name]; a missing attribute raises [AttributeError]. *)
Definition getattr (v : Value) (name : string) : M Value :=
  fun s =>
    match lookup_attr (heap s) v name with
    | Some x => Ok x s
    | None => Raise AttributeError s
    end.

(** [obj.name = x]; [None], strings and numbers accept no attribute. *)
Definition setattr (v : Value) (name : string) (x : Value) : M unit :=
  fun s =>
    match v with
    | VRef l =>
        match heap s !! l with
        | Some o => Ok tt (mkState (<[l := set_attr o name x]> (heap s)) (trace s))
        | None => Raise AttributeError s
        end
    | _ => Raise AttributeError s
    end.

Definition fresh_loc (h : Heap) : loc := fresh (dom h).

(** Object creation: the new object sits at a location not in use. *)
Definition alloc (h : Heap) (o : Obj) : Value * Heap :=
  (VRef (fresh_loc h), <[fresh_loc h := o]> h).

(** The items of a sequence object (a tuple, an [nn.ModuleList]).  A string,
    which Python also indexes and iterates, is given no items here: the
    properties about indexing and iteration are stated for values that are
    not strings. *)
Definition lookup_items (h : Heap) (v : Value) : option (list Value) :=
  match v with
  | VRef l => o ← h !! l; items o
  | _ => None
  end.

(** [seq[i]] for a constant index [i >= 0]: [TypeError] on an object that is
    not a sequence, [IndexError] past the end. *)
Definition getitem (v : Value) (i : nat) : M Value :=
  fun s =>
    match lookup_items (heap s) v with
    | Some xs =>
        match xs !! i with
        | Some x => Ok x s
        | None => Raise IndexError s
        end
    | None => Raise TypeError s
    end.

(** [v + suffix] for a string literal [suffix]: defined on strings only;
    [None], booleans, numbers and modules raise [TypeError]. *)
Definition add_str (v : Value) (suffix : string) : M Value :=
  match v with
  | VStr s => ret (VStr (String.append s suffix))
  | _ => raise TypeError
  end.

Definition lookup_hooks (h : Heap) (v : Value) : option (list Hook) :=
  match v with
  | VRef l => o ← h !! l; pre_hooks o
  | _ => None
  end.

Definition add_hook (o : Obj) (hk : Hook) : Obj :=
  mkObj (cls o) (attrs o) (items o) ((λ hs, hs ++ [hk]) <$> pre_hooks o).

(** [torch.nn.Module.register_forward_pre_hook]: the hook is added after the
    hooks already stored on the module, under a new handle; nothing is looked
    up or replaced.  Only modules have the method. *)
Definition register_forward_pre_hook (layer : Value) (hk : Hook) : M unit :=
  fun s =>
    match layer with
    | VRef l =>
        match heap s !! l with
        | Some o =>
            match pre_hooks o with
            | Some _ =>
                Ok tt (mkState (<[l := add_hook o hk]> (heap s))
                               (trace s ++ [EvRegisterPreHook layer hk]))
            | None => Raise AttributeError s
            end
        | None => Raise AttributeError s
        end
    | _ => Raise AttributeError s
    end.

(** ** Collaborators defined in other modules of the package *)

(** Modelled from the spec: the object returned by [LoRALinear.wrap(layer,
    role, config, attn_key=...)] of [..lora], which is not among the sources.
    The spec describes it as a wrapped equivalent of [layer]: a capability
    extended (LoRA-augmented) linear layer that retains the original layer's
    input and output dimensions and is tagged with the role and with the
    attention-role key. *)
Definition lora_obj (n_in n_out : Value) (location_key : string)
    (config attn_key : Value) : Obj :=
  mkObj "LoRALinear"
        {[ "in_features" := n_in; "out_features" := n_out;
           "location_key" := VStr location_key; "attn_key" := attn_key;
           "config" := config ]}
        None (Some []).

(** Modelled from the spec: [LoRALinear.wrap] itself.  It reads the two
    dimensions of [module] (an attribute error when [module] is no linear
    layer) and returns a new object; the original is left as it is and is no
    longer referred to once the caller has stored the result. *)
Definition LoRALinear_wrap
    (module : Value) (location_key : string) (config : Value)
    (attn_key : Value) : Ext Value :=
  fun h =>
    match lookup_attr h module "in_features",
          lookup_attr h module "out_features" with
    | Some n_in, Some n_out =>
        let (v, h') := alloc h (lora_obj n_in n_out location_key config attn_key) in
        Ok v h'
    | _, _ => Raise AttributeError h
    end.

(** Modelled from the spec: the object built by the constructor
    [PrefixTuningShim(key, config)] of [..prefix_tuning], which is not among
    the sources.  The spec says a shim is constructed from a key (or no key)
    and the configuration. *)
Definition shim_obj (key config : Value) : Obj :=
  mkObj "PrefixTuningShim"
        {[ "location_key" := key; "config" := config ]} None (Some []).

(** Modelled from the spec: the constructor call; it yields a new object. *)
Definition PrefixTuningShim (location_key : Value) (config : Value) : Ext Value :=
  fun h =>
    let (v, h') := alloc h (shim_obj location_key config) in
    Ok v h'.

(** ** [class BertSelfAttentionAdaptersMixin] *)

Module BertSelfAttentionAdaptersMixin.

Definition init_adapters (self config : Value) : M unit :=
  q <- getattr self "query" ;;
  q' <- call "LoRALinear.wrap" [q; VStr "selfattn"; config; VStr "q"]
          (LoRALinear_wrap q "selfattn" config (VStr "q")) ;;
  setattr self "query" q' ;;
  k <- getattr self "key" ;;
  k' <- call "LoRALinear.wrap" [k; VStr "selfattn"; config; VStr "k"]
          (LoRALinear_wrap k "selfattn" config (VStr "k")) ;;
  setattr self "key" k' ;;
  v <- getattr self "value" ;;
  v' <- call "LoRALinear.wrap" [v; VStr "selfattn"; config; VStr "v"]
          (LoRALinear_wrap v "selfattn" config (VStr "v")) ;;
  setattr self "value" v' ;;
  c <- getattr self "location_key" ;;
  key <- (if truthy c
          then (lk <- getattr self "location_key" ;; add_str lk "_prefix")
          else ret VNone) ;;
  shim <- call "PrefixTuningShim" [key; config] (PrefixTuningShim key config) ;;
  setattr self "prefix_tuning" shim.

End BertSelfAttentionAdaptersMixin.

(** ** [class BertSelfOutputAdaptersMixin(AdapterLayer)] and
       [class BertOutputAdaptersMixin(AdapterLayer)]

    [AdapterLayer.init_adapters] belongs to [..layer] and is out of the
    spec's scope: it is a parameter of both methods. *)

Module BertSelfOutputAdaptersMixin.
Section WithAdapterLayer.
Variable AdapterLayer_init_adapters : Value → Value → Ext unit.

Definition init_adapters (self config : Value) : M unit :=
  setattr self "location_key" (VStr "mh_adapter") ;;
  call "AdapterLayer.init_adapters" [self; config]
    (AdapterLayer_init_adapters self config).
End WithAdapterLayer.
End BertSelfOutputAdaptersMixin.

Module BertOutputAdaptersMixin.
Section WithAdapterLayer.
Variable AdapterLayer_init_adapters : Value → Value → Ext unit.

Definition init_adapters (self config : Value) : M unit :=
  setattr self "location_key" (VStr "output_adapter") ;;
  call "AdapterLayer.init_adapters" [self; config]
    (AdapterLayer_init_adapters self config).
End WithAdapterLayer.
End BertOutputAdaptersMixin.

(** ** [class BertLayerAdaptersMixin] *)

Module BertLayerAdaptersMixin.

Definition init_adapters (self config : Value) : M unit :=
  i <- getattr self "intermediate" ;;
  d <- getattr i "dense" ;;
  d' <- call "LoRALinear.wrap" [d; VStr "intermediate"; config; VNone]
          (LoRALinear_wrap d "intermediate" config VNone) ;;
  i' <- getattr self "intermediate" ;;
  setattr i' "dense" d' ;;
  o <- getattr self "output" ;;
  e <- getattr o "dense" ;;
  e' <- call "LoRALinear.wrap" [e; VStr "output"; config; VNone]
          (LoRALinear_wrap e "output" config VNone) ;;
  o' <- getattr self "output" ;;
  setattr o' "dense" e' ;;
  a <- getattr self "attention" ;;
  sa <- getattr a "self" ;;
  setattr sa "location_key" (VStr "self") ;;
  flag <- getattr self "add_cross_attention" ;;
  if truthy flag
  then (x <- getattr self "crossattention" ;;
        sx <- getattr x "self" ;;
        setattr sx "location_key" (VStr "cross"))
  else ret tt.

End BertLayerAdaptersMixin.

(** ** Generators and [for] loops *)

(** The generator made by [BertModelAdaptersMixin.iter_layers].  Calling a
    generator function runs none of its body: [GenFresh self] has not yet
    evaluated [self.encoder.layer].  [GenEnum seq i] is suspended at the
    [yield], inside [enumerate] over the sequence object [seq] with the next
    index [i].  [GenDone] has returned or raised. *)
Inductive Gen :=
| GenFresh (self : Value)
| GenEnum (seq : Value) (i : nat)
| GenDone.

(** One step of [enumerate(seq)] followed by [yield i, layer]. *)
Definition enum_step (seq : Value) (i : nat) : M (option (nat * Value) * Gen) :=
  fun s =>
    match lookup_items (heap s) seq with
    | Some xs =>
        match xs !! i with
        | Some x => Ok (Some (i, x), GenEnum seq (S i)) s
        | None => Ok (None, GenDone) s
        end
    | None => Raise TypeError s
    end.

(** [next(g)]: the value yielded, if any, and the generator afterwards. *)
Definition gen_next (g : Gen) : M (option (nat * Value) * Gen) :=
  match g with
  | GenFresh self =>
      enc <- getattr self "encoder" ;;
      seq <- getattr enc "layer" ;;
      enum_step seq 0
  | GenEnum seq i => enum_step seq i
  | GenDone => ret (None, GenDone)
  end.

(** [for x in g: body(x)], with fuel for the number of [next] calls. *)
Fixpoint for_each (fuel : nat) (g : Gen) (body : nat * Value → M unit) : M unit :=
  match fuel with
  | 0 => fun _ => Timeout
  | S n =>
      r <- gen_next g ;;
      match r with
      | (Some x, g') => body x ;; for_each n g' body
      | (None, _) => ret tt
      end
  end.

(** [list(g)], with fuel for the number of [next] calls. *)
Fixpoint collect (fuel : nat) (g : Gen) : M (list (nat * Value)) :=
  match fuel with
  | 0 => fun _ => Timeout
  | S n =>
      r <- gen_next g ;;
      match r with
      | (Some x, g') => xs <- collect n g' ;; ret (x :: xs)
      | (None, _) => ret []
      end
  end.

(** ** [class BertModelAdaptersMixin(EmbeddingAdaptersMixin,
       InvertibleAdaptersMixin, ModelBaseAdaptersMixin)]

    The inherited [init_adapters] reached by [super()] lives in
    [..model_mixin] and [adjust_tensors_for_parallel_] in [..composition];
    both are parameters. *)

Module BertModelAdaptersMixin.
Section WithCollaborators.
Variable super_init_adapters : Value → Value → Ext unit.
Variable adjust_tensors_for_parallel_ : Value → Value → Ext unit.

(** The closure [hook] defined inside [_set_layer_hook_for_parallel]; it is
    what a stored [ParallelHook] runs. *)
Definition hook (module input : Value) : M Value :=
  a <- getitem input 0 ;;
  b <- getitem input 1 ;;
  call "adjust_tensors_for_parallel_" [a; b] (adjust_tensors_for_parallel_ a b) ;;
  ret input.

Definition _set_layer_hook_for_parallel (self layer : Value) : M unit :=
  register_forward_pre_hook layer ParallelHook.

Definition iter_layers (self : Value) : Gen := GenFresh self.

Definition init_adapters (fuel : nat) (self config : Value) : M unit :=
  call "super().init_adapters" [self; config] (super_init_adapters self config) ;;
  for_each fuel (iter_layers self)
    (fun x => _set_layer_hook_for_parallel self (snd x)).

(** [n] successive calls of [init_adapters] on the same model. *)
Fixpoint init_adapters_times (n fuel : nat) (self config : Value) : M unit :=
  match n with
  | 0 => ret tt
  | S k => init_adapters fuel self config ;; init_adapters_times k fuel self config
  end.
End WithCollaborators.
End BertModelAdaptersMixin.

(** ** Auxiliary definitions for the statements *)

(** The store after a new object [new] has been created and attribute [n] of
    the object at [l] made to point to it: what
    [obj.n = LoRALinear.wrap(obj.n, ...)] and
    [self.prefix_tuning = PrefixTuningShim(...)] do to the store. *)
Definition attach (l : loc) (n : string) (new : Obj) (h : Heap) : Heap :=
  match h !! l with
  | Some o => <[l := set_attr o n (VRef (fresh_loc h))]> (<[fresh_loc h := new]> h)
  | None => h
  end.

(** [m] is a linear layer of the store: it has the two dimensions. *)
Definition is_linear (h : Heap) (m : Value) : Prop :=
  is_Some (lookup_attr h m "in_features") ∧
  is_Some (lookup_attr h m "out_features").

(** [new] is, in the store [h'], a LoRA-wrapped equivalent of the layer
    [orig] of the earlier store [h]: an object that did not exist in [h]
    (so not [orig]), built by [LoRALinear.wrap] for the given role and
    attention-role key, with the dimensions [orig] had. *)
Definition is_wrap_of (h h' : Heap) (orig : Value) (role : string)
    (config attn_key : Value) (new : Value) : Prop :=
  ∃ l n_in n_out,
    new = VRef l ∧ h !! l = None ∧ new ≠ orig ∧
    lookup_attr h orig "in_features" = Some n_in ∧
    lookup_attr h orig "out_features" = Some n_out ∧
    h' !! l = Some (lora_obj n_in n_out role config attn_key) ∧
    lookup_attr h' new "in_features" = lookup_attr h orig "in_features" ∧
    lookup_attr h' new "out_features" = lookup_attr h orig "out_features".

(** The two wrap statements at the head of the method leave every attribute
    the method goes on to read as it was, and no object disappears. *)
Definition dense_frame (h h' : Heap) : Prop :=
  (∀ l, is_Some (h !! l) → is_Some (h' !! l)) ∧
  (∀ l n, n ≠ "dense" → is_Some (h !! l) →
          lookup_attr h' (VRef l) n = lookup_attr h (VRef l) n).

(** What the two mixins rely on from [AdapterLayer.init_adapters]: called on
    a container whose location key is set (its precondition), it returns and
    does not assign the location key. *)
Definition adapter_layer_contract (AL : Value → Value → Ext unit) : Prop :=
  ∀ self config h key,
    lookup_attr h self "location_key" = Some (VStr key) →
    ∃ h', AL self config h = Ok tt h' ∧
          lookup_attr h' self "location_key" = Some (VStr key).

(** [init] assigns the fixed [key] to [self.location_key], then delegates to
    [AL] on the store that holds this key, and the key is still there when
    the call returns. *)
Definition sets_key_then_delegates
    (AL : Value → Value → Ext unit) (init : Value → Value → M unit)
    (key : string) (self config : Value) (h : Heap) (t : list Event) : Prop :=
  ∃ h1 s',
    lookup_attr h1 self "location_key" = Some (VStr key) ∧
    init self config (mkState h t) =
      call "AdapterLayer.init_adapters" [self; config] (AL self config)
        (mkState h1 t) ∧
    init self config (mkState h t) = Ok tt s' ∧
    trace s' = t ++ [EvCall "AdapterLayer.init_adapters" [self; config]] ∧
    lookup_attr (heap s') self "location_key" = Some (VStr key).

(** The pairs [enumerate] makes of a list. *)
Definition enumerate (xs : list Value) : list (nat * Value) :=
  imap (λ i x, (i, x)) xs.

(** [v] is a module of the store: it can take forward-pre hooks. *)
Definition is_module (h : Heap) (v : Value) : Prop :=
  is_Some (lookup_hooks h v).

(** The store after one more hook on the module [v]. *)
Definition add_hook_at (hk : Hook) (h : Heap) (v : Value) : Heap :=
  match v with
  | VRef l =>
      match h !! l with
      | Some o => <[l := add_hook o hk]> h
      | None => h
      end
  | _ => h
  end.

(** The store after one more hook on each entry of [vs], in order. *)
Definition add_hooks (hk : Hook) (vs : list Value) (h : Heap) : Heap :=
  foldl (add_hook_at hk) h vs.

Definition register_events (vs : list Value) : list Event :=
  map (λ x, EvRegisterPreHook x ParallelHook) vs.

Definition is_register (e : Event) : bool :=
  match e with
  | EvRegisterPreHook _ _ => true
  | EvCall _ _ => false
  end.

(** The items of [self.encoder.layer] in the store [h]. *)
Definition layers_of (h : Heap) (self : Value) : option (list Value) :=
  enc ← lookup_attr h self "encoder";
  seq ← lookup_attr h enc "layer";
  lookup_items h seq.

(** What repeated initialization needs from the inherited [init_adapters]:
    it returns, leaves [self.encoder.layer] the sequence of layers it was and
    touches no forward-pre hook of a layer. *)
Definition super_keeps_layers
    (super : Value → Value → Ext unit) (self config : Value) : Prop :=
  ∀ h xs,
    layers_of h self = Some xs →
    ∃ h', super self config h = Ok tt h' ∧
          layers_of h' self = Some xs ∧
          ∀ x, x ∈ xs → lookup_hooks h' x = lookup_hooks h x.

(** The number of alignment hooks of this mixin stored on the module [v]. *)
Definition alignment_hooks (h : Heap) (v : Value) : nat :=
  match lookup_hooks h v with
  | Some hs => length (List.filter (λ hk, bool_decide (hk = ParallelHook)) hs)
  | None => 0
  end.

(** ** Example stores and collaborators *)

Definition linear_layer (n_in n_out : Z) : Obj :=
  mkObj "Linear"
        {[ "in_features" := VInt n_in; "out_features" := VInt n_out ]}
        None (Some []).

Definition module_obj (c : string) (a : gmap string Value) : Obj :=
  mkObj c a None (Some []).

Definition config_obj : Obj := mkObj "BertConfig" ∅ None None.

(** A self-attention module (at 1) with its three projections and the
    location key [lk]; the configuration is at 5. *)
Definition attention_store (lk : Value) : Heap :=
  {[ 1 := module_obj "BertSelfAttention"
            {[ "query" := VRef 2; "key" := VRef 3; "value" := VRef 4;
               "location_key" := lk ]};
     2 := linear_layer 768 768;
     3 := linear_layer 768 768;
     4 := linear_layer 768 768;
     5 := config_obj ]}.

(** A self-output module (at 1) and the configuration (at 2). *)
Definition output_store : Heap :=
  {[ 1 := module_obj "BertSelfOutput" ∅; 2 := config_obj ]}.

(** A decoder layer (at 1) with cross-attention; the configuration is at
    10. *)
Definition layer_store (flag : Value) : Heap :=
  {[ 1 := module_obj "BertLayer"
            {[ "intermediate" := VRef 2; "output" := VRef 3;
               "attention" := VRef 4; "crossattention" := VRef 6;
               "add_cross_attention" := flag ]};
     2 := module_obj "BertIntermediate" {[ "dense" := VRef 8 ]};
     3 := module_obj "BertOutput" {[ "dense" := VRef 9 ]};
     4 := module_obj "BertAttention" {[ "self" := VRef 5 ]};
     5 := module_obj "BertSelfAttention" ∅;
     6 := module_obj "BertAttention" {[ "self" := VRef 7 ]};
     7 := module_obj "BertSelfAttention" ∅;
     8 := linear_layer 768 3072;
     9 := linear_layer 3072 768;
     10 := config_obj ]}.

(** A model (at 1) whose encoder (at 2) has two layers (at 4 and 5), the
    first with a hook of foreign origin; the configuration is at 6. *)
Definition model_store : Heap :=
  {[ 1 := module_obj "BertModel" {[ "encoder" := VRef 2 ]};
     2 := module_obj "BertEncoder" {[ "layer" := VRef 3 ]};
     3 := mkObj "ModuleList" ∅ (Some [VRef 4; VRef 5]) (Some []);
     4 := mkObj "BertLayer" ∅ None (Some [ForeignHook 0]);
     5 := module_obj "BertLayer" ∅;
     6 := config_obj ]}.

(** A layer (at 1), two tensors (at 3 and 4), the tuple of both (at 2) and
    the tuple of the first alone (at 5), as a layer called with the hidden
    states only receives it. *)
Definition input_store : Heap :=
  {[ 1 := module_obj "BertLayer" ∅;
     2 := mkObj "tuple" ∅ (Some [VRef 3; VRef 4]) None;
     3 := mkObj "Tensor" {[ "batch" := VInt 4 ]} None None;
     4 := mkObj "Tensor" {[ "batch" := VInt 1 ]} None None;
     5 := mkObj "tuple" ∅ (Some [VRef 3]) None ]}.

(** [model_store] once the configuration has been stored on the model. *)
Definition model_store_configured : Heap :=
  <[1 := module_obj "BertModel" {[ "encoder" := VRef 2; "config" := VRef 6 ]}]>
    model_store.

(** An initialization that stores the configuration on [self] and nothing
    else: an instance of the inherited [init_adapters]. *)
Definition store_config (self config : Value) : Ext unit :=
  fun h =>
    match self with
    | VRef l =>
        match h !! l with
        | Some o => Ok tt (<[l := set_attr o "config" config]> h)
        | None => Raise AttributeError h
        end
    | _ => Raise AttributeError h
    end.

(** An alignment that gives the second tensor the batch size of the first:
    an instance of [adjust_tensors_for_parallel_]. *)
Definition align_batch (a b : Value) : Ext unit :=
  fun h =>
    match lookup_attr h a "batch", b with
    | Some n, VRef l =>
        match h !! l with
        | Some o => Ok tt (<[l := set_attr o "batch" n]> h)
        | None => Raise AttributeError h
        end
    | _, _ => Raise AttributeError h
    end.

(** ** [BertModelAdaptersMixin.hook_after_embeddings]

    [torch.nn.Module.register_forward_hook] is a parameter: it acts on the
    store and returns the handle of the registration. *)

Module BertModelAdaptersMixin_embeddings.
Section WithTorch.
Variable register_forward_hook : Value → Value → Ext Value.

Definition hook_after_embeddings (self hook_fn : Value) : M Value :=
  emb <- getattr self "embeddings" ;;
  call "register_forward_hook" [emb; hook_fn] (register_forward_hook emb hook_fn).
End WithTorch.
End BertModelAdaptersMixin_embeddings.

(** ** Further auxiliary definitions *)

(** The store after [obj.n = x] for the object at [l]. *)
Definition store_attr (l : loc) (n : string) (x : Value) (h : Heap) : Heap :=
  match h !! l with
  | Some o => <[l := set_attr o n x]> h
  | None => h
  end.

(** The store after the three wrap statements of
    [BertSelfAttentionAdaptersMixin.init_adapters] on the module at [l], for
    projections of the given dimensions. *)
Definition qkv_wrapped (l : loc) (config qi qo ki ko vi vo : Value) (h : Heap) : Heap :=
  attach l "value" (lora_obj vi vo "selfattn" config (VStr "v"))
    (attach l "key" (lora_obj ki ko "selfattn" config (VStr "k"))
       (attach l "query" (lora_obj qi qo "selfattn" config (VStr "q")) h)).

(** The three [LoRALinear.wrap] calls these statements log. *)
Definition qkv_wrap_events (q k v config : Value) : list Event :=
  [EvCall "LoRALinear.wrap" [q; VStr "selfattn"; config; VStr "q"];
   EvCall "LoRALinear.wrap" [k; VStr "selfattn"; config; VStr "k"];
   EvCall "LoRALinear.wrap" [v; VStr "selfattn"; config; VStr "v"]].

(** The last statement of the method, from the read of the location key. *)
Definition attach_prefix_tuning (self config : Value) : M unit :=
  c <- getattr self "location_key" ;;
  key <- (if truthy c
          then (lk <- getattr self "location_key" ;; add_str lk "_prefix")
          else ret VNone) ;;
  shim <- call "PrefixTuningShim" [key; config] (PrefixTuningShim key config) ;;
  setattr self "prefix_tuning" shim.

(** The store after the two wrap statements of
    [BertLayerAdaptersMixin.init_adapters], for an intermediate module at
    [li] and an output module at [lo] with dense layers of the given
    dimensions. *)
Definition dense_wrapped (li lo : loc) (config di do ei eo : Value) (h : Heap) : Heap :=
  attach lo "dense" (lora_obj ei eo "output" config VNone)
    (attach li "dense" (lora_obj di do "intermediate" config VNone) h).

(** The two [LoRALinear.wrap] calls these statements log. *)
Definition dense_wrap_events (d e config : Value) : list Event :=
  [EvCall "LoRALinear.wrap" [d; VStr "intermediate"; config; VNone];
   EvCall "LoRALinear.wrap" [e; VStr "output"; config; VNone]].

(** The rest of the method: the location keys. *)
Definition set_location_keys (self : Value) : M unit :=
  a <- getattr self "attention" ;;
  sa <- getattr a "self" ;;
  setattr sa "location_key" (VStr "self") ;;
  flag <- getattr self "add_cross_attention" ;;
  if truthy flag
  then (x <- getattr self "crossattention" ;;
        sx <- getattr x "self" ;;
        setattr sx "location_key" (VStr "cross"))
  else ret tt.

(** The store after the whole method; [olsx] is the cross-attention module
    that receives a key, if any. *)
Definition layer_final (li lo lsa : loc) (olsx : option loc)
    (config di do ei eo : Value) (h : Heap) : Heap :=
  let h3 := store_attr lsa "location_key" (VStr "self")
              (dense_wrapped li lo config di do ei eo h) in
  match olsx with
  | Some lsx => store_attr lsx "location_key" (VStr "cross") h3
  | None => h3
  end.

(** Which module the conditional statement writes to: with a true flag the
    module [self.crossattention.self], which must exist; with a false flag
    none. *)
Definition cross_target (h : Heap) (self flag : Value) (olsx : option loc) : Prop :=
  if truthy flag
  then ∃ x lsx, olsx = Some lsx ∧
                lookup_attr h self "crossattention" = Some x ∧
                lookup_attr h x "self" = Some (VRef lsx) ∧
                is_Some (h !! lsx)
  else olsx = None.

(** ** Further example stores and collaborators *)

(** A self-attention module (at 1) that has no [location_key] attribute. *)
Definition attention_store_without_key : Heap :=
  {[ 1 := module_obj "BertSelfAttention"
            {[ "query" := VRef 2; "key" := VRef 3; "value" := VRef 4 ]};
     2 := linear_layer 768 768;
     3 := linear_layer 768 768;
     4 := linear_layer 768 768;
     5 := config_obj ]}.

(** A layer (at 1) configured for cross-attention but built without the
    cross-attention module. *)
Definition layer_store_without_cross : Heap :=
  {[ 1 := module_obj "BertLayer"
            {[ "intermediate" := VRef 2; "output" := VRef 3;
               "attention" := VRef 4; "add_cross_attention" := VBool true ]};
     2 := module_obj "BertIntermediate" {[ "dense" := VRef 8 ]};
     3 := module_obj "BertOutput" {[ "dense" := VRef 9 ]};
     4 := module_obj "BertAttention" {[ "self" := VRef 5 ]};
     5 := module_obj "BertSelfAttention" ∅;
     8 := linear_layer 768 3072;
     9 := linear_layer 3072 768;
     10 := config_obj ]}.


(** [model_store] with another list of layers. *)
Definition model_store_of (layers : list Value) : Heap :=
  <[3 := mkObj "ModuleList" ∅ (Some layers) (Some [])]> model_store.

(** The same once the configuration has been stored on the model. *)
Definition model_store_of_configured (layers : list Value) : Heap :=
  <[1 := module_obj "BertModel" {[ "encoder" := VRef 2; "config" := VRef 6 ]}]>
    (model_store_of layers).

(** [output_store] once the configuration has been stored on the module at
    1, which has no encoder. *)
Definition output_store_configured : Heap :=
  <[1 := module_obj "BertSelfOutput" {[ "config" := VRef 2 ]}]> output_store.

(** A model (at 1) with an embeddings module (at 2) and a hook function (at
    3). *)
Definition embeddings_store : Heap :=
  {[ 1 := module_obj "BertModel" {[ "embeddings" := VRef 2 ]};
     2 := module_obj "BertEmbeddings" ∅;
     3 := mkObj "function" ∅ None None ]}.

(** An initialization, or an adjustment, that fails. *)
Definition failing (tag : string) (a b : Value) : Ext unit :=
  fun h => Raise (ExternalError tag) h.

(** A registration that returns a new handle object naming the module and
    the hook: an instance of [register_forward_hook]. *)
Definition register_with_handle (module hook_fn : Value) : Ext Value :=
  fun h =>
    match lookup_hooks h module with
    | Some _ =>
        let (v, h') :=
          alloc h (mkObj "RemovableHandle"
                         {[ "module" := module; "hook" := hook_fn ]} None None) in
        Ok v h'
    | None => Raise AttributeError h
    end.

(** * Properties *)

(** ** The monad *)

Lemma bind_Ok {A B} (m : M A) (k : A → M B) s a s' :
  m s = Ok a s' → bind m k s = k a s'.
Proof. intros E. unfold bind. by rewrite E. Qed.

Lemma bind_Raise {A B} (m : M A) (k : A → M B) s e s' :
  m s = Raise e s' → bind m k s = Raise e s'.
Proof. intros E. unfold bind. by rewrite E. Qed.

Lemma bind_assoc {A B C} (m : M A) (k : A → M B) (k' : B → M C) s :
  bind (bind m k) k' s = bind m (fun a => bind (k a) k') s.
Proof. unfold bind. by destruct (m s). Qed.

(** ** The object store *)

Lemma fresh_loc_None (h : Heap) : h !! fresh_loc h = None.
Proof. unfold fresh_loc. apply (not_elem_of_dom (D := gset loc)), is_fresh. Qed.

Lemma fresh_loc_ne (h : Heap) l o : h !! l = Some o → fresh_loc h ≠ l.
Proof. intros E Hl. by rewrite <- Hl, fresh_loc_None in E. Qed.

Lemma lookup_attr_Some h v n x :
  lookup_attr h v n = Some x ↔
  ∃ l o, v = VRef l ∧ h !! l = Some o ∧ attrs o !! n = Some x.
Proof.
  split.
  - destruct v; simpl; try done.
    destruct (h !! l) as [o|] eqn:E; simpl; [|done]. eauto.
  - intros (l & o & -> & E & Ea). simpl. by rewrite E.
Qed.

(** Allocation leaves every attribute that could be read readable. *)
Lemma lookup_attr_alloc h o v n :
  is_Some (lookup_attr h v n) →
  lookup_attr (<[fresh_loc h := o]> h) v n = lookup_attr h v n.
Proof.
  intros [x (l & o' & -> & E & Ea)%lookup_attr_Some]. simpl.
  rewrite lookup_insert_ne; [done | by eapply fresh_loc_ne].
Qed.

(** Writing attribute [n] of an object changes no attribute of another
    name, whatever the object read. *)
Lemma lookup_attr_store_name h l o n x v n' :
  h !! l = Some o → n ≠ n' →
  lookup_attr (<[l := set_attr o n x]> h) v n' = lookup_attr h v n'.
Proof.
  intros E Hn. destruct v as [| | | |l']; simpl; try done.
  destruct (decide (l = l')) as [<-|Hl].
  - rewrite lookup_insert_eq, E. simpl. by rewrite lookup_insert_ne.
  - by rewrite lookup_insert_ne.
Qed.

Lemma lookup_attr_store_eq h l o n x :
  lookup_attr (<[l := set_attr o n x]> h) (VRef l) n = Some x.
Proof. simpl. rewrite lookup_insert_eq. simpl. by rewrite lookup_insert_eq. Qed.

Lemma lookup_attr_store_loc h l o l' n :
  l ≠ l' → lookup_attr (<[l := o]> h) (VRef l') n = lookup_attr h (VRef l') n.
Proof. intros Hl. simpl. by rewrite lookup_insert_ne. Qed.

(** ** Running the primitives *)

Lemma getattr_Ok s v n x :
  lookup_attr (heap s) v n = Some x → getattr v n s = Ok x s.
Proof. intros E. unfold getattr. by rewrite E. Qed.

Lemma setattr_Ok s l o n x :
  heap s !! l = Some o →
  setattr (VRef l) n x s =
    Ok tt (mkState (<[l := set_attr o n x]> (heap s)) (trace s)).
Proof. intros E. unfold setattr. by rewrite E. Qed.

Lemma call_wrap_Ok s fn args m role config ak n_in n_out :
  lookup_attr (heap s) m "in_features" = Some n_in →
  lookup_attr (heap s) m "out_features" = Some n_out →
  call fn args (LoRALinear_wrap m role config ak) s =
    Ok (VRef (fresh_loc (heap s)))
       (mkState (<[fresh_loc (heap s) := lora_obj n_in n_out role config ak]> (heap s))
                (trace s ++ [EvCall fn args])).
Proof. intros E1 E2. unfold call, LoRALinear_wrap. by rewrite E1, E2. Qed.

Lemma call_shim_Ok s fn args key config :
  call fn args (PrefixTuningShim key config) s =
    Ok (VRef (fresh_loc (heap s)))
       (mkState (<[fresh_loc (heap s) := shim_obj key config]> (heap s))
                (trace s ++ [EvCall fn args])).
Proof. done. Qed.

(** ** Wrap-and-store: [obj.n = LoRALinear.wrap(obj.n, role, config, ...)] *)

Lemma attach_lookup_attr_eq l n new h :
  is_Some (h !! l) →
  lookup_attr (attach l n new h) (VRef l) n = Some (VRef (fresh_loc h)).
Proof. intros [o E]. unfold attach. rewrite E. apply lookup_attr_store_eq. Qed.

Lemma attach_lookup_attr_ne l n new h v n' :
  n ≠ n' → is_Some (lookup_attr h v n') →
  lookup_attr (attach l n new h) v n' = lookup_attr h v n'.
Proof.
  intros Hn Hv. unfold attach. destruct (h !! l) as [o|] eqn:E; [|done].
  rewrite lookup_attr_store_name; [by apply lookup_attr_alloc| |done].
  rewrite lookup_insert_ne; [done | by eapply fresh_loc_ne].
Qed.

Lemma attach_lookup_new l n new h :
  is_Some (h !! l) → attach l n new h !! fresh_loc h = Some new.
Proof.
  intros [o E]. unfold attach. rewrite E.
  rewrite lookup_insert_ne; [apply lookup_insert_eq|].
  intros Hl. symmetry in Hl. by eapply fresh_loc_ne.
Qed.

Lemma attach_lookup_other l n new h l' :
  l' ≠ l → is_Some (h !! l') → attach l n new h !! l' = h !! l'.
Proof.
  intros Hl [o' E']. unfold attach. destruct (h !! l) as [o|] eqn:E; [|done].
  rewrite lookup_insert_ne by done.
  rewrite lookup_insert_ne; [done | by eapply fresh_loc_ne].
Qed.

Lemma attach_lookup_self l n new h o :
  h !! l = Some o →
  attach l n new h !! l = Some (set_attr o n (VRef (fresh_loc h))).
Proof. intros E. unfold attach. rewrite E. apply lookup_insert_eq. Qed.

Lemma attach_is_Some l n new h l' :
  is_Some (h !! l') → is_Some (attach l n new h !! l').
Proof.
  intros H'. destruct (decide (l' = l)) as [->|Hl].
  - destruct H' as [o E]. rewrite (attach_lookup_self _ _ _ _ _ E). eauto.
  - by rewrite attach_lookup_other.
Qed.

(** [obj.n = LoRALinear.wrap(obj.n, role, config, attn_key)] as one step. *)
Lemma wrap_store_Ok s l n role config ak m n_in n_out (k : M unit) :
  lookup_attr (heap s) (VRef l) n = Some m →
  lookup_attr (heap s) m "in_features" = Some n_in →
  lookup_attr (heap s) m "out_features" = Some n_out →
  (x <- getattr (VRef l) n ;;
   x' <- call "LoRALinear.wrap" [x; VStr role; config; ak]
           (LoRALinear_wrap x role config ak) ;;
   setattr (VRef l) n x' ;; k) s =
  k (mkState (attach l n (lora_obj n_in n_out role config ak) (heap s))
             (trace s ++ [EvCall "LoRALinear.wrap" [m; VStr role; config; ak]])).
Proof.
  intros Em E1 E2.
  rewrite (bind_Ok _ _ _ _ _ (getattr_Ok _ _ _ _ Em)).
  rewrite (bind_Ok _ _ _ _ _ (call_wrap_Ok _ _ _ _ _ _ _ _ _ E1 E2)).
  apply lookup_attr_Some in Em as (l0 & o & [= <-] & E & _).
  erewrite bind_Ok; [reflexivity|].
  erewrite setattr_Ok.
  - simpl. unfold attach. by rewrite E.
  - simpl. rewrite lookup_insert_ne; [done | by eapply fresh_loc_ne].
Qed.

Ltac attr_frame :=
  lazymatch goal with
  | |- is_Some _ => eexists; attr_frame
  | |- lookup_attr (attach _ _ _ _) _ _ = _ =>
      rewrite attach_lookup_attr_ne; [attr_frame | done | attr_frame]
  | |- _ => eassumption
  end.

Lemma lookup_attr_is_Some_ref h v n :
  is_Some (lookup_attr h v n) → ∃ l, v = VRef l ∧ is_Some (h !! l).
Proof. intros [x (l & o & -> & E & _)%lookup_attr_Some]. eauto. Qed.

(** ** [BertSelfAttentionAdaptersMixin.init_adapters] *)

Section SelfAttention.
Import BertSelfAttentionAdaptersMixin.

Variables (config : Value) (h : Heap) (t : list Event) (l : loc).
Variables (q k v lk : Value) (qi qo ki ko vi vo : Value).
Hypothesis Hq : lookup_attr h (VRef l) "query" = Some q.
Hypothesis Hk : lookup_attr h (VRef l) "key" = Some k.
Hypothesis Hv : lookup_attr h (VRef l) "value" = Some v.
Hypothesis Hlk : lookup_attr h (VRef l) "location_key" = Some lk.
Hypothesis Hqi : lookup_attr h q "in_features" = Some qi.
Hypothesis Hqo : lookup_attr h q "out_features" = Some qo.
Hypothesis Hki : lookup_attr h k "in_features" = Some ki.
Hypothesis Hko : lookup_attr h k "out_features" = Some ko.
Hypothesis Hvi : lookup_attr h v "in_features" = Some vi.
Hypothesis Hvo : lookup_attr h v "out_features" = Some vo.

Let h1 := attach l "query" (lora_obj qi qo "selfattn" config (VStr "q")) h.
Let h2 := attach l "key" (lora_obj ki ko "selfattn" config (VStr "k")) h1.
Let h3 := attach l "value" (lora_obj vi vo "selfattn" config (VStr "v")) h2.

(** The store and the log after the whole method, for the key [key] that
    the conditional expression of the last statement evaluates to. *)
Lemma self_attention_init_run key :
  (truthy lk = true ∧ add_str lk "_prefix" = ret key) ∨
  (truthy lk = false ∧ key = VNone) →
  init_adapters (VRef l) config (mkState h t) =
    Ok tt (mkState
             (attach l "prefix_tuning" (shim_obj key config) h3)
             (t ++ [EvCall "LoRALinear.wrap" [q; VStr "selfattn"; config; VStr "q"];
                    EvCall "LoRALinear.wrap" [k; VStr "selfattn"; config; VStr "k"];
                    EvCall "LoRALinear.wrap" [v; VStr "selfattn"; config; VStr "v"];
                    EvCall "PrefixTuningShim" [key; config]])).
Proof using All.
  intros Hkey. unfold init_adapters.
  rewrite (wrap_store_Ok _ _ _ _ _ _ q qi qo) by done. cbn [heap trace].
  fold h1.
  rewrite (wrap_store_Ok _ _ _ _ _ _ k ki ko) by (cbn [heap]; subst h1; attr_frame).
  cbn [heap trace]. fold h2.
  rewrite (wrap_store_Ok _ _ _ _ _ _ v vi vo) by (cbn [heap]; subst h1 h2; attr_frame).
  cbn [heap trace]. fold h3.
  match goal with |- bind _ _ ?s = _ => set (s3 := s) end.
  assert (Hlk3 : lookup_attr (heap s3) (VRef l) "location_key" = Some lk)
    by (subst s3 h1 h2 h3; cbn [heap]; attr_frame).
  rewrite (bind_Ok _ _ _ _ _ (getattr_Ok _ _ _ _ Hlk3)).
  assert (Hrun : (if truthy lk
                  then lk0 <- getattr (VRef l) "location_key" ;; add_str lk0 "_prefix"
                  else ret VNone) s3 = Ok key s3).
  { destruct Hkey as [[-> Ha]|[-> ->]]; [|done].
    rewrite (bind_Ok _ _ _ _ _ (getattr_Ok _ _ _ _ Hlk3)). by rewrite Ha. }
  rewrite (bind_Ok _ _ _ _ _ Hrun).
  rewrite (bind_Ok _ _ _ _ _ (call_shim_Ok _ _ _ _ _)).
  destruct (lookup_attr_is_Some_ref (heap s3) (VRef l) "location_key")
    as (l' & [= <-] & [o Ho]); [by eexists|].
  erewrite setattr_Ok.
  - subst s3. cbn [heap trace] in *. unfold attach at 1. rewrite Ho.
    by rewrite <- !(assoc_L (++)).
  - cbn [heap]. rewrite lookup_insert_ne; [done | by eapply fresh_loc_ne].
Qed.
End SelfAttention.

Lemma attach_lookup_attr_new l n new h n' :
  is_Some (h !! l) →
  lookup_attr (attach l n new h) (VRef (fresh_loc h)) n' = attrs new !! n'.
Proof. intros Hl. simpl. by rewrite attach_lookup_new. Qed.

(** A wrapped layer stays what it is while further objects are attached to
    the module that owns it. *)
Lemma is_wrap_of_attach h h' orig role config ak new l n o :
  is_Some (h !! l) →
  is_wrap_of h h' orig role config ak new →
  is_Some (h' !! l) →
  is_wrap_of h (attach l n o h') orig role config ak new.
Proof.
  intros Hl (l' & a & b & -> & Hnone & Hne & Ha & Hb & Hobj & _ & _) Hl'.
  assert (l' ≠ l) by (intros ->; destruct Hl as [? Hl]; congruence).
  assert (Hobj' : attach l n o h' !! l' = Some (lora_obj a b role config ak))
    by (rewrite attach_lookup_other; eauto).
  exists l', a, b. repeat split; try done.
  - simpl. by rewrite Hobj', Ha.
  - simpl. by rewrite Hobj', Hb.
Qed.

(** What [obj.n = LoRALinear.wrap(obj.n, role, config, attn_key)] stores. *)
Lemma is_wrap_of_fresh h0 h l n orig role config ak a b :
  (∀ l', is_Some (h0 !! l') → is_Some (h !! l')) →
  is_Some (h !! l) →
  lookup_attr h0 orig "in_features" = Some a →
  lookup_attr h0 orig "out_features" = Some b →
  is_wrap_of h0 (attach l n (lora_obj a b role config ak) h) orig role config ak
    (VRef (fresh_loc h)).
Proof.
  intros Hmono Hl Ha Hb.
  assert (Hnone : h0 !! fresh_loc h = None).
  { destruct (h0 !! fresh_loc h) as [o|] eqn:E; [|done].
    destruct (Hmono (fresh_loc h)) as [o' E']; [by eexists|].
    by rewrite fresh_loc_None in E'. }
  exists (fresh_loc h), a, b. repeat split; try done.
  - intros <-. simpl in Ha. by rewrite Hnone in Ha.
  - by apply attach_lookup_new.
  - by rewrite attach_lookup_attr_new, Ha.
  - by rewrite attach_lookup_attr_new, Hb.
Qed.

Ltac alloc_mono :=
  lazymatch goal with
  | |- is_Some (attach _ _ _ _ !! _) => apply attach_is_Some; alloc_mono
  | |- _ => eassumption
  end.

(** C1.  On a self-attention module whose [query], [key] and [value] are
    linear layers and whose location key is a string or [None],
    [BertSelfAttentionAdaptersMixin.init_adapters(config)] returns, for every
    configuration object, and afterwards each of [self.query], [self.key] and
    [self.value] refers to an object that did not exist before, hence not the
    original layer: the LoRA-wrapped equivalent produced by [LoRALinear.wrap]
    with the location "selfattn" and the attention-role key "q", "k" and "v"
    respectively, with the input and output dimensions of the original
    layer.  The log shows the three calls of [LoRALinear.wrap] with these
    arguments. *)
Theorem self_attention_init_wraps_qkv
    (config : Value) (h : Heap) (t : list Event) (self q k v lk : Value) :
  lookup_attr h self "query" = Some q →
  lookup_attr h self "key" = Some k →
  lookup_attr h self "value" = Some v →
  is_linear h q → is_linear h k → is_linear h v →
  lookup_attr h self "location_key" = Some lk →
  (lk = VNone ∨ ∃ s, lk = VStr s) →
  ∃ s' q' k' v',
    BertSelfAttentionAdaptersMixin.init_adapters self config (mkState h t) = Ok tt s' ∧
    lookup_attr (heap s') self "query" = Some q' ∧
    lookup_attr (heap s') self "key" = Some k' ∧
    lookup_attr (heap s') self "value" = Some v' ∧
    is_wrap_of h (heap s') q "selfattn" config (VStr "q") q' ∧
    is_wrap_of h (heap s') k "selfattn" config (VStr "k") k' ∧
    is_wrap_of h (heap s') v "selfattn" config (VStr "v") v' ∧
    EvCall "LoRALinear.wrap" [q; VStr "selfattn"; config; VStr "q"] ∈ trace s' ∧
    EvCall "LoRALinear.wrap" [k; VStr "selfattn"; config; VStr "k"] ∈ trace s' ∧
    EvCall "LoRALinear.wrap" [v; VStr "selfattn"; config; VStr "v"] ∈ trace s'.
Proof.
  intros Hq Hk Hv [[qi Hqi] [qo Hqo]] [[ki Hki] [ko Hko]] [[vi Hvi] [vo Hvo]] Hlk Hty.
  destruct (lookup_attr_is_Some_ref h self "query") as (l & -> & Hl); [by eexists|].
  assert (Hkey : ∃ key, (truthy lk = true ∧ add_str lk "_prefix" = ret key) ∨
                        (truthy lk = false ∧ key = VNone)).
  { destruct Hty as [->|[s ->]]; [exists VNone; by right|].
    destruct (truthy (VStr s)) eqn:E; [|exists VNone; by right].
    exists (VStr (String.append s "_prefix")). by left. }
  destruct Hkey as [key Hkey].
  eexists _, _, _, _. split.
  { by apply (self_attention_init_run config h t l q k v lk qi qo ki ko vi vo). }
  cbn [heap trace].
  set (h1 := attach l "query" _ h).
  set (h2 := attach l "key" _ h1).
  set (h3 := attach l "value" _ h2).
  assert (Hl1 : is_Some (h1 !! l)) by (subst h1; alloc_mono).
  assert (Hl2 : is_Some (h2 !! l)) by (subst h2; alloc_mono).
  assert (Hl3 : is_Some (h3 !! l)) by (subst h3; alloc_mono).
  split; [|split; [|split]].
  { rewrite !attach_lookup_attr_ne; try done;
      try (subst h3; rewrite attach_lookup_attr_ne; try done);
      try (subst h2; rewrite attach_lookup_attr_ne; try done);
      subst h1; by rewrite attach_lookup_attr_eq. }
  { rewrite !attach_lookup_attr_ne; try done;
      try (subst h3; rewrite attach_lookup_attr_ne; try done);
      subst h2; by rewrite attach_lookup_attr_eq. }
  { rewrite !attach_lookup_attr_ne; try done;
      subst h3; by rewrite attach_lookup_attr_eq. }
  split; [|split; [|split]].
  - do 3 (apply is_wrap_of_attach; [done| |done]).
    by apply is_wrap_of_fresh.
  - do 2 (apply is_wrap_of_attach; [done| |done]).
    apply is_wrap_of_fresh; try done.
    intros l' Hl'. subst h1. alloc_mono.
  - apply is_wrap_of_attach; [done| |done].
    apply is_wrap_of_fresh; try done.
    intros l' Hl'. subst h2 h1. alloc_mono.
  - repeat split; apply elem_of_app; right; rewrite !elem_of_cons; auto 10.
Qed.

Lemma fresh_loc_mono_None (h0 h : Heap) :
  (∀ l, is_Some (h0 !! l) → is_Some (h !! l)) → h0 !! fresh_loc h = None.
Proof.
  intros Hmono. destruct (h0 !! fresh_loc h) as [o|] eqn:E; [|done].
  destruct (Hmono (fresh_loc h)) as [o' E']; [by eexists|].
  by rewrite fresh_loc_None in E'.
Qed.

(** The last statement of the method: whatever key the conditional
    expression evaluates to, a new shim built from it ends up in
    [self.prefix_tuning]. *)
Lemma self_attention_init_shim
    (config : Value) (h : Heap) (t : list Event) (self q k v lk key : Value) :
  lookup_attr h self "query" = Some q →
  lookup_attr h self "key" = Some k →
  lookup_attr h self "value" = Some v →
  is_linear h q → is_linear h k → is_linear h v →
  lookup_attr h self "location_key" = Some lk →
  (truthy lk = true ∧ add_str lk "_prefix" = ret key) ∨
  (truthy lk = false ∧ key = VNone) →
  ∃ s' p,
    BertSelfAttentionAdaptersMixin.init_adapters self config (mkState h t) = Ok tt s' ∧
    lookup_attr (heap s') self "prefix_tuning" = Some (VRef p) ∧
    h !! p = None ∧
    heap s' !! p = Some (shim_obj key config) ∧
    last (trace s') = Some (EvCall "PrefixTuningShim" [key; config]).
Proof.
  intros Hq Hk Hv [[qi Hqi] [qo Hqo]] [[ki Hki] [ko Hko]] [[vi Hvi] [vo Hvo]] Hlk Hkey.
  destruct (lookup_attr_is_Some_ref h self "query") as (l & -> & Hl); [by eexists|].
  eexists _, _. split.
  { by apply (self_attention_init_run config h t l q k v lk qi qo ki ko vi vo). }
  cbn [heap trace].
  set (h1 := attach l "query" _ h).
  set (h2 := attach l "key" _ h1).
  set (h3 := attach l "value" _ h2).
  assert (Hmono : ∀ l', is_Some (h !! l') → is_Some (h3 !! l'))
    by (intros l' Hl'; subst h3 h2 h1; alloc_mono).
  split; [|split; [|split]].
  - apply attach_lookup_attr_eq. by apply Hmono.
  - by apply fresh_loc_mono_None.
  - apply attach_lookup_new. by apply Hmono.
  - by rewrite last_app.
Qed.

(** C2.  On a self-attention module whose location key is a string or
    [None], [init_adapters(config)] returns, for every configuration object,
    and [self.prefix_tuning] then exists and refers to an object (it is not
    [None]): a shim constructed with the key [self.location_key + "_prefix"]
    when the location key is truthy, and with the key [None] when it is
    not. *)
Theorem self_attention_init_prefix_tuning
    (config : Value) (h : Heap) (t : list Event) (self q k v lk : Value) :
  lookup_attr h self "query" = Some q →
  lookup_attr h self "key" = Some k →
  lookup_attr h self "value" = Some v →
  is_linear h q → is_linear h k → is_linear h v →
  lookup_attr h self "location_key" = Some lk →
  (lk = VNone ∨ ∃ s, lk = VStr s) →
  ∃ s' p key,
    BertSelfAttentionAdaptersMixin.init_adapters self config (mkState h t) = Ok tt s' ∧
    lookup_attr (heap s') self "prefix_tuning" = Some (VRef p) ∧
    VRef p ≠ VNone ∧
    heap s' !! p = Some (shim_obj key config) ∧
    last (trace s') = Some (EvCall "PrefixTuningShim" [key; config]) ∧
    (truthy lk = true → ∃ s, lk = VStr s ∧ key = VStr (String.append s "_prefix")) ∧
    (truthy lk = false → key = VNone).
Proof.
  intros Hq Hk Hv Lq Lk Lv Hlk Hty.
  assert (Hkey : ∃ key,
    ((truthy lk = true ∧ add_str lk "_prefix" = ret key) ∨
     (truthy lk = false ∧ key = VNone)) ∧
    (truthy lk = true → ∃ s, lk = VStr s ∧ key = VStr (String.append s "_prefix")) ∧
    (truthy lk = false → key = VNone)).
  { destruct Hty as [->|[s ->]].
    - exists VNone. split; [by right|]. split; [done|done].
    - destruct (truthy (VStr s)) eqn:E.
      + exists (VStr (String.append s "_prefix")). split; [by left|]. split; [eauto|done].
      + exists VNone. split; [by right|]. split; [done|done]. }
  destruct Hkey as (key & Hkey & Ht & Hf).
  destruct (self_attention_init_shim config h t self q k v lk key)
    as (s' & p & Hrun & Hp & _ & Hobj & Hlast); try done.
  exists s', p, key. repeat split; try done.
Qed.

(** C8.  Whenever the location key is falsy ([None], the empty string, or
    any other false value), [init_adapters(config)] still assigns
    [self.prefix_tuning]: it refers to an object that did not exist before
    the call, a [PrefixTuningShim] constructed with the key [None], so the
    attribute is not [None]. *)
Theorem self_attention_init_prefix_tuning_falsy
    (config : Value) (h : Heap) (t : list Event) (self q k v lk : Value) :
  lookup_attr h self "query" = Some q →
  lookup_attr h self "key" = Some k →
  lookup_attr h self "value" = Some v →
  is_linear h q → is_linear h k → is_linear h v →
  lookup_attr h self "location_key" = Some lk →
  truthy lk = false →
  ∃ s' p,
    BertSelfAttentionAdaptersMixin.init_adapters self config (mkState h t) = Ok tt s' ∧
    lookup_attr (heap s') self "prefix_tuning" = Some (VRef p) ∧
    VRef p ≠ VNone ∧
    h !! p = None ∧
    heap s' !! p = Some (shim_obj VNone config) ∧
    cls (shim_obj VNone config) = "PrefixTuningShim" ∧
    attrs (shim_obj VNone config) !! "location_key" = Some VNone ∧
    last (trace s') = Some (EvCall "PrefixTuningShim" [VNone; config]).
Proof.
  intros Hq Hk Hv Lq Lk Lv Hlk Hf.
  destruct (self_attention_init_shim config h t self q k v lk VNone)
    as (s' & p & Hrun & Hp & Hnew & Hobj & Hlast); try done.
  { by right. }
  exists s', p. repeat split; try done.
Qed.

(** ** [BertLayerAdaptersMixin.init_adapters] *)

Lemma attach_lookup_attr_frame l n new h l' n' :
  n ≠ n' → is_Some (h !! l') →
  lookup_attr (attach l n new h) (VRef l') n' = lookup_attr h (VRef l') n'.
Proof.
  intros Hn [o' E']. unfold attach. destruct (h !! l) as [o|] eqn:E; [|done].
  rewrite lookup_attr_store_name; [| |done].
  - apply lookup_attr_store_loc. by eapply fresh_loc_ne.
  - rewrite lookup_insert_ne; [done | by eapply fresh_loc_ne].
Qed.



(** [self.sub.n = LoRALinear.wrap(self.sub.n, role, config)] as one step:
    the right-hand side is evaluated first, then the target [self.sub]. *)
Lemma wrap_store_sub_Ok s self sub l n role config ak m a b (k : M unit) :
  lookup_attr (heap s) self sub = Some (VRef l) →
  lookup_attr (heap s) (VRef l) n = Some m →
  lookup_attr (heap s) m "in_features" = Some a →
  lookup_attr (heap s) m "out_features" = Some b →
  (i <- getattr self sub ;;
   d <- getattr i n ;;
   d' <- call "LoRALinear.wrap" [d; VStr role; config; ak]
           (LoRALinear_wrap d role config ak) ;;
   i' <- getattr self sub ;;
   setattr i' n d' ;; k) s =
  k (mkState (attach l n (lora_obj a b role config ak) (heap s))
             (trace s ++ [EvCall "LoRALinear.wrap" [m; VStr role; config; ak]])).
Proof.
  intros Hs Hm Ha Hb.
  rewrite (bind_Ok _ _ _ _ _ (getattr_Ok _ _ _ _ Hs)).
  rewrite (bind_Ok _ _ _ _ _ (getattr_Ok _ _ _ _ Hm)).
  rewrite (bind_Ok _ _ _ _ _ (call_wrap_Ok _ _ _ _ _ _ _ _ _ Ha Hb)).
  apply lookup_attr_Some in Hm as (l0 & o & [= <-] & E & _).
  erewrite bind_Ok; [|apply getattr_Ok; cbn [heap]; rewrite lookup_attr_alloc; eauto].
  erewrite bind_Ok; [reflexivity|].
  erewrite setattr_Ok.
  - cbn [heap trace]. unfold attach. by rewrite E.
  - cbn [heap]. rewrite lookup_insert_ne; [done | by eapply fresh_loc_ne].
Qed.

Lemma dense_frame_attach l new h0 h :
  dense_frame h0 h → dense_frame h0 (attach l "dense" new h).
Proof.
  intros [Ha Hf]. split.
  - intros l' Hl'. apply attach_is_Some. by apply Ha.
  - intros l' n Hn Hl'. rewrite attach_lookup_attr_frame; [by apply Hf|done|by apply Ha].
Qed.

Lemma dense_frame_refl h : dense_frame h h.
Proof. by split. Qed.

Lemma dense_frame_attr h h' v n x :
  dense_frame h h' → n ≠ "dense" →
  lookup_attr h v n = Some x → lookup_attr h' v n = Some x.
Proof.
  intros [_ Hf] Hn Hx.
  destruct (lookup_attr_is_Some_ref h v n) as (l & -> & Hl); [by eexists|].
  by rewrite Hf.
Qed.


(** ** [BertSelfOutputAdaptersMixin] and [BertOutputAdaptersMixin] *)

Lemma sets_key_then_delegates_intro AL key self config h t :
  adapter_layer_contract AL →
  (∃ l, self = VRef l ∧ is_Some (h !! l)) →
  sets_key_then_delegates AL
    (fun self config =>
       setattr self "location_key" (VStr key) ;;
       call "AdapterLayer.init_adapters" [self; config] (AL self config))
    key self config h t.
Proof.
  intros HAL (l & -> & [o Ho]).
  set (h1 := <[l := set_attr o "location_key" (VStr key)]> h).
  assert (Hk : lookup_attr h1 (VRef l) "location_key" = Some (VStr key))
    by apply lookup_attr_store_eq.
  destruct (HAL (VRef l) config h1 key Hk) as (h' & Hrun & Hk').
  exists h1, (mkState h' (t ++ [EvCall "AdapterLayer.init_adapters" [VRef l; config]])).
  split; [done|].
  assert (Hset : setattr (VRef l) "location_key" (VStr key) (mkState h t) =
                 Ok tt (mkState h1 t)) by by apply setattr_Ok.
  split; [by rewrite (bind_Ok _ _ _ _ _ Hset)|].
  split; [|done].
  rewrite (bind_Ok _ _ _ _ _ Hset). unfold call. cbn [heap trace]. by rewrite Hrun.
Qed.

(** C4.  For every configuration object and every module object [self],
    [BertSelfOutputAdaptersMixin.init_adapters] first assigns "mh_adapter" to
    [self.location_key] and [BertOutputAdaptersMixin.init_adapters] first
    assigns "output_adapter"; each then delegates to
    [AdapterLayer.init_adapters] on a store that already holds the fixed key,
    and, the generic initialization keeping to its contract, the location key
    is that literal when the method returns. *)
Theorem output_mixins_fixed_location_key
    (AL : Value → Value → Ext unit) (config self : Value) (h : Heap)
    (t : list Event) :
  adapter_layer_contract AL →
  (∃ l, self = VRef l ∧ is_Some (h !! l)) →
  sets_key_then_delegates AL (BertSelfOutputAdaptersMixin.init_adapters AL)
    "mh_adapter" self config h t ∧
  sets_key_then_delegates AL (BertOutputAdaptersMixin.init_adapters AL)
    "output_adapter" self config h t.
Proof.
  intros HAL Hself. split; by apply sets_key_then_delegates_intro.
Qed.

(** ** [BertModelAdaptersMixin.iter_layers] *)

Lemma enum_step_Some s seq xs i x :
  lookup_items (heap s) seq = Some xs → xs !! i = Some x →
  enum_step seq i s = Ok (Some (i, x), GenEnum seq (S i)) s.
Proof. intros E Ei. unfold enum_step. by rewrite E, Ei. Qed.

Lemma enum_step_None s seq xs i :
  lookup_items (heap s) seq = Some xs → xs !! i = None →
  enum_step seq i s = Ok (None, GenDone) s.
Proof. intros E Ei. unfold enum_step. by rewrite E, Ei. Qed.

Lemma drop_nil_lookup {A} (xs : list A) i : drop i xs = [] → xs !! i = None.
Proof.
  intros E. apply lookup_ge_None.
  apply (f_equal length) in E. rewrite length_drop in E. simpl in E. lia.
Qed.

Lemma drop_cons_lookup {A} (xs : list A) i x rest :
  drop i xs = x :: rest → xs !! i = Some x ∧ drop (S i) xs = rest.
Proof.
  intros E.
  assert (Hx : xs !! i = Some x).
  { pose proof (lookup_drop xs i 0) as L. rewrite E in L. simpl in L.
    by rewrite Nat.add_0_r in L. }
  split; [done|]. rewrite (drop_S _ _ _ Hx) in E. by injection E.
Qed.

(** Draining a generator suspended at index [i] gives the remaining pairs
    and leaves the state as it is. *)
Lemma collect_enum s seq xs :
  lookup_items (heap s) seq = Some xs →
  ∀ rest i fuel,
    drop i xs = rest → length rest < fuel →
    collect fuel (GenEnum seq i) s = Ok (imap (λ j x, (i + j, x)) rest) s.
Proof.
  intros E. induction rest as [|x rest IH]; intros i fuel Hd Hf;
    (destruct fuel as [|fuel]; [simpl in Hf; lia|]); cbn [collect gen_next].
  - apply drop_nil_lookup in Hd.
    by rewrite (bind_Ok _ _ _ _ _ (enum_step_None _ _ _ _ E Hd)).
  - apply drop_cons_lookup in Hd as [Hx Hd].
    rewrite (bind_Ok _ _ _ _ _ (enum_step_Some _ _ _ _ _ E Hx)).
    erewrite bind_Ok; [|apply IH; [done | simpl in Hf; lia]].
    unfold ret. f_equal. simpl. rewrite Nat.add_0_r. f_equal.
    apply imap_ext. intros j y _. simpl. f_equal. lia.
Qed.

Lemma collect_iter_layers s self enc seq xs fuel :
  lookup_attr (heap s) self "encoder" = Some enc →
  lookup_attr (heap s) enc "layer" = Some seq →
  lookup_items (heap s) seq = Some xs →
  length xs < fuel →
  collect fuel (GenFresh self) s = Ok (enumerate xs) s.
Proof.
  intros He Hl Hi Hf. destruct fuel as [|fuel]; [lia|]. cbn [collect gen_next].
  rewrite bind_assoc, (bind_Ok _ _ _ _ _ (getattr_Ok _ _ _ _ He)).
  rewrite bind_assoc, (bind_Ok _ _ _ _ _ (getattr_Ok _ _ _ _ Hl)).
  destruct xs as [|x xs].
  - by rewrite (bind_Ok _ _ _ _ _ (enum_step_None _ _ _ _ Hi eq_refl)).
  - rewrite (bind_Ok _ _ _ _ _ (enum_step_Some _ _ _ 0 x Hi eq_refl)).
    erewrite bind_Ok;
      [|apply (collect_enum s seq (x :: xs) Hi xs 1); [done | simpl in Hf; lia]].
    unfold ret, enumerate. f_equal.
Qed.

(** C5.  For every model whose [encoder.layer] is a sequence,
    [list(self.iter_layers())] returns the pairs [(i, layer_i)] for the items
    of [self.encoder.layer], in their order and with indices ascending from
    0, and leaves the state as it is; a second call of [iter_layers] walks
    the collection again and yields the same sequence. *)
Theorem iter_layers_enumerates_in_order
    (self enc seq : Value) (xs : list Value) (h : Heap) (t : list Event)
    (fuel : nat) :
  lookup_attr h self "encoder" = Some enc →
  lookup_attr h enc "layer" = Some seq →
  lookup_items h seq = Some xs →
  length xs < fuel →
  collect fuel (BertModelAdaptersMixin.iter_layers self) (mkState h t) =
    Ok (enumerate xs) (mkState h t) ∧
  (a <- collect fuel (BertModelAdaptersMixin.iter_layers self) ;;
   b <- collect fuel (BertModelAdaptersMixin.iter_layers self) ;;
   ret (a, b)) (mkState h t) =
    Ok (enumerate xs, enumerate xs) (mkState h t) ∧
  length (enumerate xs) = length xs ∧
  (∀ i, enumerate xs !! i = (λ x, (i, x)) <$> xs !! i).
Proof.
  intros He Hl Hi Hf.
  assert (Hrun : collect fuel (BertModelAdaptersMixin.iter_layers self) (mkState h t) =
                 Ok (enumerate xs) (mkState h t))
    by by apply (collect_iter_layers _ self enc seq).
  split; [done|]. split.
  - by rewrite (bind_Ok _ _ _ _ _ Hrun), (bind_Ok _ _ _ _ _ Hrun).
  - split; [apply length_imap|]. intros i. apply list_lookup_imap.
Qed.

(** ** [BertModelAdaptersMixin.init_adapters] *)

Lemma register_Ok s x hk :
  is_Some (lookup_hooks (heap s) x) →
  register_forward_pre_hook x hk s =
    Ok tt (mkState (add_hook_at hk (heap s) x) (trace s ++ [EvRegisterPreHook x hk])).
Proof.
  intros [hs E]. destruct x as [| | | |l]; simpl in E; try done.
  unfold register_forward_pre_hook, add_hook_at.
  destruct (heap s !! l) as [o|]; simpl in E; [|done]. by rewrite E.
Qed.

Lemma add_hook_at_attr hk h x v n :
  lookup_attr (add_hook_at hk h x) v n = lookup_attr h v n.
Proof.
  destruct x as [| | | |l]; try done. unfold add_hook_at.
  destruct (h !! l) as [o|] eqn:E; [|done].
  destruct v as [| | | |l']; try done. simpl.
  destruct (decide (l = l')) as [<-|Hne].
  - by rewrite lookup_insert_eq, E.
  - by rewrite lookup_insert_ne.
Qed.

Lemma add_hook_at_items hk h x v :
  lookup_items (add_hook_at hk h x) v = lookup_items h v.
Proof.
  destruct x as [| | | |l]; try done. unfold add_hook_at.
  destruct (h !! l) as [o|] eqn:E; [|done].
  destruct v as [| | | |l']; try done. simpl.
  destruct (decide (l = l')) as [<-|Hne].
  - by rewrite lookup_insert_eq, E.
  - by rewrite lookup_insert_ne.
Qed.

Lemma add_hook_at_hooks_eq hk h x :
  lookup_hooks (add_hook_at hk h x) x = (λ hs, hs ++ [hk]) <$> lookup_hooks h x.
Proof.
  destruct x as [| | | |l]; try done. unfold add_hook_at. simpl.
  destruct (h !! l) as [o|] eqn:E; simpl; [|by rewrite E].
  by rewrite lookup_insert_eq.
Qed.

Lemma add_hook_at_hooks_ne hk h x y :
  x ≠ y → lookup_hooks (add_hook_at hk h x) y = lookup_hooks h y.
Proof.
  intros Hne. destruct x as [| | | |l]; try done. unfold add_hook_at.
  destruct (h !! l) as [o|] eqn:E; [|done].
  destruct y as [| | | |l']; try done. simpl.
  rewrite lookup_insert_ne; [done|congruence].
Qed.

Lemma add_hook_at_is_module hk h x y :
  is_Some (lookup_hooks h y) → is_Some (lookup_hooks (add_hook_at hk h x) y).
Proof.
  intros [hs E]. destruct (decide (x = y)) as [->|Hne].
  - rewrite add_hook_at_hooks_eq, E. by eexists.
  - rewrite add_hook_at_hooks_ne by done. by eexists.
Qed.

Lemma add_hooks_attr hk vs h v n :
  lookup_attr (add_hooks hk vs h) v n = lookup_attr h v n.
Proof.
  revert h. induction vs as [|x vs IH]; intros h; [done|].
  unfold add_hooks in *. simpl. by rewrite IH, add_hook_at_attr.
Qed.

Lemma add_hooks_items hk vs h v :
  lookup_items (add_hooks hk vs h) v = lookup_items h v.
Proof.
  revert h. induction vs as [|x vs IH]; intros h; [done|].
  unfold add_hooks in *. simpl. by rewrite IH, add_hook_at_items.
Qed.

Lemma add_hooks_hooks_notin hk vs h y :
  y ∉ vs → lookup_hooks (add_hooks hk vs h) y = lookup_hooks h y.
Proof.
  revert h. induction vs as [|x vs IH]; intros h Hy; [done|].
  apply not_elem_of_cons in Hy as [Hne Hy].
  unfold add_hooks in *. simpl. rewrite IH by done.
  by apply add_hook_at_hooks_ne.
Qed.

(** With pairwise distinct entries, each entry gains exactly one hook. *)
Lemma add_hooks_hooks_in hk vs h y :
  NoDup vs → y ∈ vs →
  lookup_hooks (add_hooks hk vs h) y = (λ hs, hs ++ [hk]) <$> lookup_hooks h y.
Proof.
  revert h. induction vs as [|x vs IH]; intros h Hnd Hy; [by apply elem_of_nil in Hy|].
  apply NoDup_cons in Hnd as [Hx Hnd].
  unfold add_hooks in *. simpl. apply elem_of_cons in Hy as [->|Hy].
  - fold (add_hooks hk vs (add_hook_at hk h x)).
    rewrite add_hooks_hooks_notin by done. apply add_hook_at_hooks_eq.
  - rewrite IH by done. rewrite add_hook_at_hooks_ne; [done|].
    intros ->. done.
Qed.

Lemma add_hooks_is_module hk vs h y :
  is_Some (lookup_hooks h y) → is_Some (lookup_hooks (add_hooks hk vs h) y).
Proof.
  revert h. induction vs as [|x vs IH]; intros h Hy; [done|].
  unfold add_hooks in *. simpl. by apply IH, add_hook_at_is_module.
Qed.

(** The loop of [init_adapters], from a generator suspended at index [i]:
    it registers one hook on each remaining entry, in order, and then
    stops. *)
Lemma for_each_enum_register self seq xs :
  ∀ rest i fuel s,
    lookup_items (heap s) seq = Some xs →
    drop i xs = rest →
    (∀ x, x ∈ rest → is_Some (lookup_hooks (heap s) x)) →
    length rest < fuel →
    for_each fuel (GenEnum seq i)
      (λ x, BertModelAdaptersMixin._set_layer_hook_for_parallel self (snd x)) s =
    Ok tt (mkState (add_hooks ParallelHook rest (heap s))
                   (trace s ++ register_events rest)).
Proof.
  induction rest as [|x rest IH]; intros i fuel s E Hd Hm Hf;
    (destruct fuel as [|fuel]; [simpl in Hf; lia|]); cbn [for_each gen_next].
  - apply drop_nil_lookup in Hd.
    rewrite (bind_Ok _ _ _ _ _ (enum_step_None _ _ _ _ E Hd)).
    unfold ret, register_events. simpl. rewrite app_nil_r. by destruct s.
  - apply drop_cons_lookup in Hd as [Hx Hd].
    rewrite (bind_Ok _ _ _ _ _ (enum_step_Some _ _ _ _ _ E Hx)).
    unfold BertModelAdaptersMixin._set_layer_hook_for_parallel at 1. cbn [snd].
    rewrite (bind_Ok _ _ _ _ _ (register_Ok _ _ _ (Hm x (list_elem_of_here _ _)))).
    rewrite (IH (S i) fuel); cbn [heap trace].
    + unfold register_events. simpl. by rewrite <- app_assoc.
    + by rewrite add_hook_at_items.
    + done.
    + intros y Hy. apply add_hook_at_is_module, Hm. by apply list_elem_of_further.
    + simpl in Hf. lia.
Qed.

Lemma layers_of_Some h self xs :
  layers_of h self = Some xs ↔
  ∃ enc seq, lookup_attr h self "encoder" = Some enc ∧
             lookup_attr h enc "layer" = Some seq ∧
             lookup_items h seq = Some xs.
Proof.
  unfold layers_of. split.
  - destruct (lookup_attr h self "encoder") as [enc|]; simpl; [|done].
    destruct (lookup_attr h enc "layer") as [seq|] eqn:E; simpl; [|done]. eauto.
  - intros (enc & seq & -> & E & Hi). simpl. by rewrite E.
Qed.

Lemma add_hooks_layers_of hk vs h self :
  layers_of (add_hooks hk vs h) self = layers_of h self.
Proof.
  unfold layers_of. rewrite add_hooks_attr.
  destruct (lookup_attr h self "encoder") as [enc|]; simpl; [|done].
  rewrite add_hooks_attr.
  destruct (lookup_attr h enc "layer") as [seq|]; simpl; [|done].
  apply add_hooks_items.
Qed.

(** The first [next] of a fresh generator evaluates [self.encoder.layer] and
    then behaves like [enumerate] at index 0. *)
Lemma for_each_fresh s self enc seq fuel body :
  lookup_attr (heap s) self "encoder" = Some enc →
  lookup_attr (heap s) enc "layer" = Some seq →
  for_each fuel (GenFresh self) body s = for_each fuel (GenEnum seq 0) body s.
Proof.
  intros He Hl. destruct fuel as [|fuel]; [done|]. cbn [for_each gen_next].
  rewrite bind_assoc, (bind_Ok _ _ _ _ _ (getattr_Ok _ _ _ _ He)).
  by rewrite bind_assoc, (bind_Ok _ _ _ _ _ (getattr_Ok _ _ _ _ Hl)).
Qed.

Lemma call_Ok {A} fn args (f : Ext A) s a h' :
  f (heap s) = Ok a h' →
  call fn args f s = Ok a (mkState h' (trace s ++ [EvCall fn args])).
Proof. intros E. unfold call. by rewrite E. Qed.

Lemma call_Raise {A} fn args (f : Ext A) s e h' :
  f (heap s) = Raise e h' →
  call fn args f s = Raise e (mkState h' (trace s ++ [EvCall fn args])).
Proof. intros E. unfold call. by rewrite E. Qed.

(** The whole of [init_adapters] in closed form: the inherited
    initialization takes the store from [h] to [h1], then every entry of
    [self.encoder.layer], read in [h1], gets one hook. *)
Lemma model_init_run super config self h t h1 xs fuel :
  super self config h = Ok tt h1 →
  layers_of h1 self = Some xs →
  (∀ x, x ∈ xs → is_Some (lookup_hooks h1 x)) →
  length xs < fuel →
  BertModelAdaptersMixin.init_adapters super fuel self config (mkState h t) =
    Ok tt (mkState (add_hooks ParallelHook xs h1)
                   (t ++ EvCall "super().init_adapters" [self; config]
                        :: register_events xs)).
Proof.
  intros Hs (enc & seq & He & Hl & Hi)%layers_of_Some Hm Hf.
  unfold BertModelAdaptersMixin.init_adapters.
  rewrite (bind_Ok _ _ _ _ _ (call_Ok _ _ _ (mkState h t) _ _ Hs)). cbn [heap trace].
  unfold BertModelAdaptersMixin.iter_layers.
  rewrite (for_each_fresh _ self enc seq) by done.
  rewrite (for_each_enum_register self seq xs xs 0 fuel) by done.
  cbn [heap trace]. by rewrite <- app_assoc.
Qed.

Lemma collect_layers_of s self xs fuel :
  layers_of (heap s) self = Some xs → length xs < fuel →
  collect fuel (BertModelAdaptersMixin.iter_layers self) s = Ok (enumerate xs) s.
Proof.
  intros (enc & seq & He & Hl & Hi)%layers_of_Some Hf.
  by apply (collect_iter_layers _ self enc seq).
Qed.

(** C6, as the code has it.  One call of [init_adapters(config)], for every
    configuration
    object: when the inherited initialization returns and
    [self.encoder.layer] then is a sequence of pairwise distinct modules, the
    call returns; the layers [iter_layers()] yields afterwards are these
    modules; each of them carries the hooks it had when the inherited
    initialization returned followed by exactly one alignment hook; and the
    registrations the call made are one per layer, in the order of the
    layers. *)
Theorem model_init_one_hook_per_layer
    (super : Value → Value → Ext unit) (config self : Value)
    (h h1 : Heap) (t : list Event) (xs : list Value) (fuel : nat) :
  super self config h = Ok tt h1 →
  layers_of h1 self = Some xs →
  Forall (is_module h1) xs →
  NoDup xs →
  length xs < fuel →
  ∃ s',
    BertModelAdaptersMixin.init_adapters super fuel self config (mkState h t) = Ok tt s' ∧
    collect fuel (BertModelAdaptersMixin.iter_layers self) s' = Ok (enumerate xs) s' ∧
    (∀ x, x ∈ xs →
       ∃ hs, lookup_hooks h1 x = Some hs ∧
             lookup_hooks (heap s') x = Some (hs ++ [ParallelHook])) ∧
    List.filter is_register (drop (length t) (trace s')) = register_events xs.
Proof.
  intros Hs Hl Hm Hnd Hf. unfold is_module in Hm. rewrite Forall_forall in Hm.
  eexists. split.
  { by apply (model_init_run super config self h t h1 xs). }
  cbn [heap trace]. split; [|split].
  - apply collect_layers_of; [|done]. cbn [heap]. by rewrite add_hooks_layers_of.
  - intros x Hx. destruct (Hm x Hx) as [hs Hhs]. exists hs. split; [done|].
    by rewrite add_hooks_hooks_in, Hhs.
  - rewrite drop_app_length. simpl.
    unfold register_events. clear. induction xs as [|x xs IH]; [done|].
    simpl. by rewrite IH.
Qed.

Lemma register_events_lookup xs j e :
  register_events xs !! j = Some e → is_register e = true.
Proof.
  unfold register_events. rewrite list_lookup_fmap.
  destruct (xs !! j); simpl; [|done]. by intros [= <-].
Qed.

(** C7.  For every configuration object, [init_adapters(config)] makes its
    single [super().init_adapters(config)] call first: if that call raises,
    the exception leaves the method and no hook has been registered; once it
    has returned, the hooks are registered on the layers found in the store
    it returned, so in the log of the call the delegation is the first entry,
    it occurs once, and every hook registration comes after it. *)
Theorem model_init_super_before_hooks
    (super : Value → Value → Ext unit) (config self : Value)
    (h h1 : Heap) (t : list Event) (xs : list Value) (fuel : nat) :
  super self config h = Ok tt h1 →
  layers_of h1 self = Some xs →
  Forall (is_module h1) xs →
  length xs < fuel →
  ∃ s' new,
    BertModelAdaptersMixin.init_adapters super fuel self config (mkState h t) = Ok tt s' ∧
    heap s' = add_hooks ParallelHook xs h1 ∧
    trace s' = t ++ new ∧
    new = EvCall "super().init_adapters" [self; config] :: register_events xs ∧
    length (List.filter (λ e, negb (is_register e)) new) = 1 ∧
    length (List.filter is_register new) = length xs ∧
    (∀ i j e, new !! i = Some (EvCall "super().init_adapters" [self; config]) →
              new !! j = Some e → is_register e = true → i < j) ∧
    (∀ h0 t0 e h2, super self config h0 = Raise e h2 →
       BertModelAdaptersMixin.init_adapters super fuel self config (mkState h0 t0) =
         Raise e (mkState h2 (t0 ++ [EvCall "super().init_adapters" [self; config]]))).
Proof.
  intros Hs Hl Hm Hf. unfold is_module in Hm. rewrite Forall_forall in Hm.
  assert (Hreg : ∀ ys, List.filter is_register (register_events ys) = register_events ys).
  { induction ys as [|y ys IH]; [done|]. simpl. by rewrite IH. }
  assert (Hnreg : ∀ ys, List.filter (λ e, negb (is_register e)) (register_events ys) = []).
  { induction ys as [|y ys IH]; [done|]. simpl. by rewrite IH. }
  eexists _, _. split.
  { by apply (model_init_run super config self h t h1 xs). }
  cbn [heap trace]. split; [done|]. split; [done|]. split; [done|].
  split; [simpl; by rewrite Hnreg|].
  split; [simpl; rewrite Hreg; apply length_map|].
  split.
  - intros i j e Hi Hj He. destruct i as [|i].
    + destruct j as [|j]; [|lia]. simpl in Hj. injection Hj as <-. done.
    + simpl in Hi. by apply register_events_lookup in Hi.
  - intros h0 t0 e h2 Hr. unfold BertModelAdaptersMixin.init_adapters.
    by rewrite (bind_Raise _ _ _ _ _ (call_Raise _ _ _ (mkState h0 t0) _ _ Hr)).
Qed.

Lemma alignment_hooks_app hs n :
  length (List.filter (λ hk, bool_decide (hk = ParallelHook))
            (hs ++ replicate n ParallelHook)) =
  length (List.filter (λ hk, bool_decide (hk = ParallelHook)) hs) + n.
Proof.
  rewrite List.filter_app, length_app. f_equal.
  induction n as [|n IH]; [done|]. simpl. by rewrite IH.
Qed.

(** C10, as the code has it.  [init_adapters] is not idempotent in its hook
    registration: for
    every [n], after [n] calls on the same model (whose layers are pairwise
    distinct modules, with an inherited initialization that keeps the layers
    and their hooks), every encoder layer carries the hooks it had before,
    followed by [n] alignment hooks; each call adds one more per layer. *)
Theorem model_init_n_times_n_hooks
    (super : Value → Value → Ext unit) (config self : Value)
    (xs : list Value) (fuel n : nat) (h : Heap) (t : list Event) :
  super_keeps_layers super self config →
  layers_of h self = Some xs →
  Forall (is_module h) xs →
  NoDup xs →
  length xs < fuel →
  ∃ s',
    BertModelAdaptersMixin.init_adapters_times super n fuel self config (mkState h t)
      = Ok tt s' ∧
    layers_of (heap s') self = Some xs ∧
    ∀ x, x ∈ xs →
      (∃ hs, lookup_hooks h x = Some hs ∧
             lookup_hooks (heap s') x = Some (hs ++ replicate n ParallelHook)) ∧
      alignment_hooks (heap s') x = alignment_hooks h x + n.
Proof.
  intros Hsuper. revert h t.
  induction n as [|n IH]; intros h t Hl Hm Hnd Hf;
    assert (Hm' : ∀ x, x ∈ xs → is_Some (lookup_hooks h x))
      by (by apply Forall_forall).
  - exists (mkState h t). split; [done|]. split; [done|].
    intros x Hx. destruct (Hm' x Hx) as [hs Hhs]. split.
    + exists hs. by rewrite app_nil_r.
    + cbn [heap]. lia.
  - destruct (Hsuper h xs Hl) as (h1 & Hs & Hl1 & Hk1).
    assert (Hm1 : ∀ x, x ∈ xs → is_Some (lookup_hooks h1 x)).
    { intros x Hx. rewrite Hk1 by done. by apply Hm'. }
    pose proof (model_init_run super config self h t h1 xs fuel Hs Hl1 Hm1 Hf) as Hrun.
    set (h2 := add_hooks ParallelHook xs h1) in Hrun.
    set (t2 := t ++ _) in Hrun.
    destruct (IH h2 t2) as (s' & Hrun' & Hl' & Hh'); try done.
    { subst h2. by rewrite add_hooks_layers_of. }
    { apply Forall_forall. intros x Hx. subst h2. by apply add_hooks_is_module, Hm1. }
    exists s'. split; [|split; [done|]].
    { cbn [BertModelAdaptersMixin.init_adapters_times].
      by rewrite (bind_Ok _ _ _ _ _ Hrun). }
    intros x Hx. destruct (Hm' x Hx) as [hs Hhs].
    assert (H2 : lookup_hooks h2 x = Some (hs ++ [ParallelHook])).
    { subst h2. by rewrite add_hooks_hooks_in, Hk1, Hhs. }
    destruct (Hh' x Hx) as [(hs' & Hhs' & Hfin) Hcount].
    rewrite H2 in Hhs'. injection Hhs' as <-.
    assert (Hfin' : lookup_hooks (heap s') x = Some (hs ++ replicate (S n) ParallelHook))
      by (rewrite Hfin; by rewrite <- app_assoc).
    split; [by exists hs|].
    unfold alignment_hooks. rewrite Hfin', Hhs. apply alignment_hooks_app.
Qed.

(** ** The hook of [_set_layer_hook_for_parallel] *)

Lemma getitem_Ok s v xs i x :
  lookup_items (heap s) v = Some xs → xs !! i = Some x → getitem v i s = Ok x s.
Proof. intros E Ei. unfold getitem. by rewrite E, Ei. Qed.

Lemma getitem_IndexError s v xs i :
  lookup_items (heap s) v = Some xs → xs !! i = None →
  getitem v i s = Raise IndexError s.
Proof. intros E Ei. unfold getitem. by rewrite E, Ei. Qed.

(** On a tuple with fewer than two elements the hook raises [IndexError]
    before [adjust_tensors_for_parallel_] is called. *)
Lemma hook_short_tuple_IndexError
    (adjust : Value → Value → Ext unit) (module input : Value)
    (xs : list Value) (s : State) :
  lookup_items (heap s) input = Some xs →
  length xs < 2 →
  BertModelAdaptersMixin.hook adjust module input s = Raise IndexError s.
Proof.
  intros Hi Hlen. unfold BertModelAdaptersMixin.hook.
  destruct xs as [|a [|b xs]]; [| |simpl in Hlen; lia].
  - by rewrite (bind_Raise _ _ _ _ _ (getitem_IndexError _ _ _ 0 Hi eq_refl)).
  - rewrite (bind_Ok _ _ _ _ _ (getitem_Ok _ _ _ 0 a Hi eq_refl)).
    by rewrite (bind_Raise _ _ _ _ _ (getitem_IndexError _ _ _ 1 Hi eq_refl)).
Qed.

(** C9, as the code has it.  For every module and every input tuple with at
    least two elements on which [adjust_tensors_for_parallel_(input[0],
    input[1])] returns, the hook returns the very tuple it was given; the
    store it leaves is the one that call left and its only logged action is
    that call; the module argument plays no part. *)
Theorem hook_returns_input
    (adjust : Value → Value → Ext unit) (module input a b : Value)
    (xs : list Value) (h h' : Heap) (t : list Event) :
  lookup_items h input = Some xs →
  xs !! 0 = Some a →
  xs !! 1 = Some b →
  adjust a b h = Ok tt h' →
  BertModelAdaptersMixin.hook adjust module input (mkState h t) =
    Ok input (mkState h' (t ++ [EvCall "adjust_tensors_for_parallel_" [a; b]])) ∧
  (∀ module', BertModelAdaptersMixin.hook adjust module' input (mkState h t) =
              BertModelAdaptersMixin.hook adjust module input (mkState h t)).
Proof.
  intros Hi Ha Hb Hadj. split; [|done].
  unfold BertModelAdaptersMixin.hook.
  rewrite (bind_Ok _ _ _ _ _ (getitem_Ok (mkState h t) _ _ _ _ Hi Ha)).
  rewrite (bind_Ok _ _ _ _ _ (getitem_Ok (mkState h t) _ _ _ _ Hi Hb)).
  by rewrite (bind_Ok _ _ _ _ _ (call_Ok _ _ _ (mkState h t) _ _ Hadj)).
Qed.

(** ** The statements at concrete stores *)

Lemma self_attention_init_wraps_qkv_example :
  ∃ s' q' k' v',
    BertSelfAttentionAdaptersMixin.init_adapters (VRef 1) (VRef 5)
      (mkState (attention_store (VStr "self")) []) = Ok tt s' ∧
    lookup_attr (heap s') (VRef 1) "query" = Some q' ∧
    lookup_attr (heap s') (VRef 1) "key" = Some k' ∧
    lookup_attr (heap s') (VRef 1) "value" = Some v' ∧
    is_wrap_of (attention_store (VStr "self")) (heap s') (VRef 2) "selfattn"
      (VRef 5) (VStr "q") q' ∧
    is_wrap_of (attention_store (VStr "self")) (heap s') (VRef 3) "selfattn"
      (VRef 5) (VStr "k") k' ∧
    is_wrap_of (attention_store (VStr "self")) (heap s') (VRef 4) "selfattn"
      (VRef 5) (VStr "v") v' ∧
    EvCall "LoRALinear.wrap" [VRef 2; VStr "selfattn"; VRef 5; VStr "q"] ∈ trace s' ∧
    EvCall "LoRALinear.wrap" [VRef 3; VStr "selfattn"; VRef 5; VStr "k"] ∈ trace s' ∧
    EvCall "LoRALinear.wrap" [VRef 4; VStr "selfattn"; VRef 5; VStr "v"] ∈ trace s'.
Proof.
  apply (self_attention_init_wraps_qkv (VRef 5) (attention_store (VStr "self")) []
           (VRef 1) (VRef 2) (VRef 3) (VRef 4) (VStr "self")).
  - reflexivity.
  - reflexivity.
  - reflexivity.
  - split; eexists; reflexivity.
  - split; eexists; reflexivity.
  - split; eexists; reflexivity.
  - reflexivity.
  - right. eexists. reflexivity.
Defined.

Lemma self_attention_init_prefix_tuning_example :
  ∃ s' p key,
    BertSelfAttentionAdaptersMixin.init_adapters (VRef 1) (VRef 5)
      (mkState (attention_store (VStr "self")) []) = Ok tt s' ∧
    lookup_attr (heap s') (VRef 1) "prefix_tuning" = Some (VRef p) ∧
    VRef p ≠ VNone ∧
    heap s' !! p = Some (shim_obj key (VRef 5)) ∧
    last (trace s') = Some (EvCall "PrefixTuningShim" [key; VRef 5]) ∧
    (truthy (VStr "self") = true →
     ∃ s, VStr "self" = VStr s ∧ key = VStr (String.append s "_prefix")) ∧
    (truthy (VStr "self") = false → key = VNone).
Proof.
  apply (self_attention_init_prefix_tuning (VRef 5) (attention_store (VStr "self")) []
           (VRef 1) (VRef 2) (VRef 3) (VRef 4) (VStr "self")).
  - reflexivity.
  - reflexivity.
  - reflexivity.
  - split; eexists; reflexivity.
  - split; eexists; reflexivity.
  - split; eexists; reflexivity.
  - reflexivity.
  - right. eexists. reflexivity.
Defined.

Lemma self_attention_init_prefix_tuning_falsy_example :
  ∃ s' p,
    BertSelfAttentionAdaptersMixin.init_adapters (VRef 1) (VRef 5)
      (mkState (attention_store (VStr "")) []) = Ok tt s' ∧
    lookup_attr (heap s') (VRef 1) "prefix_tuning" = Some (VRef p) ∧
    VRef p ≠ VNone ∧
    attention_store (VStr "") !! p = None ∧
    heap s' !! p = Some (shim_obj VNone (VRef 5)) ∧
    cls (shim_obj VNone (VRef 5)) = "PrefixTuningShim" ∧
    attrs (shim_obj VNone (VRef 5)) !! "location_key" = Some VNone ∧
    last (trace s') = Some (EvCall "PrefixTuningShim" [VNone; VRef 5]).
Proof.
  apply (self_attention_init_prefix_tuning_falsy (VRef 5) (attention_store (VStr "")) []
           (VRef 1) (VRef 2) (VRef 3) (VRef 4) (VStr "")).
  - reflexivity.
  - reflexivity.
  - reflexivity.
  - split; eexists; reflexivity.
  - split; eexists; reflexivity.
  - split; eexists; reflexivity.
  - reflexivity.
  - reflexivity.
Defined.


Lemma lookup_items_store h l o n x v :
  h !! l = Some o →
  lookup_items (<[l := set_attr o n x]> h) v = lookup_items h v.
Proof.
  intros E. destruct v as [| | | |l']; try done. simpl.
  destruct (decide (l = l')) as [<-|Hne].
  - by rewrite lookup_insert_eq, E.
  - by rewrite lookup_insert_ne.
Qed.

Lemma lookup_hooks_store h l o n x v :
  h !! l = Some o →
  lookup_hooks (<[l := set_attr o n x]> h) v = lookup_hooks h v.
Proof.
  intros E. destruct v as [| | | |l']; try done. simpl.
  destruct (decide (l = l')) as [<-|Hne].
  - by rewrite lookup_insert_eq, E.
  - by rewrite lookup_insert_ne.
Qed.

Lemma store_config_adapter_layer_contract : adapter_layer_contract store_config.
Proof.
  intros self config h key Hk.
  destruct (lookup_attr_is_Some_ref h self "location_key") as (l & -> & [o Ho]);
    [by eexists|].
  unfold store_config. rewrite Ho. eexists. split; [reflexivity|].
  by rewrite lookup_attr_store_name.
Qed.

Lemma store_config_keeps_layers self config :
  super_keeps_layers store_config self config.
Proof.
  intros h xs Hl.
  pose proof Hl as (enc & seq & He & Hs & Hi)%layers_of_Some.
  destruct (lookup_attr_is_Some_ref h self "encoder") as (l & -> & [o Ho]);
    [by eexists|].
  unfold store_config. rewrite Ho. eexists. split; [reflexivity|]. split.
  - apply layers_of_Some. exists enc, seq.
    rewrite !lookup_attr_store_name by done. by rewrite lookup_items_store.
  - intros x _. by apply lookup_hooks_store.
Qed.

Lemma output_mixins_fixed_location_key_example :
  sets_key_then_delegates store_config
    (BertSelfOutputAdaptersMixin.init_adapters store_config)
    "mh_adapter" (VRef 1) (VRef 2) output_store [] ∧
  sets_key_then_delegates store_config
    (BertOutputAdaptersMixin.init_adapters store_config)
    "output_adapter" (VRef 1) (VRef 2) output_store [].
Proof.
  apply (output_mixins_fixed_location_key store_config (VRef 2) (VRef 1) output_store []).
  - exact store_config_adapter_layer_contract.
  - exists 1. split; [reflexivity|]. eexists. reflexivity.
Defined.

Lemma iter_layers_enumerates_in_order_example :
  collect 3 (BertModelAdaptersMixin.iter_layers (VRef 1)) (mkState model_store []) =
    Ok (enumerate [VRef 4; VRef 5]) (mkState model_store []) ∧
  (a <- collect 3 (BertModelAdaptersMixin.iter_layers (VRef 1)) ;;
   b <- collect 3 (BertModelAdaptersMixin.iter_layers (VRef 1)) ;;
   ret (a, b)) (mkState model_store []) =
    Ok (enumerate [VRef 4; VRef 5], enumerate [VRef 4; VRef 5]) (mkState model_store []) ∧
  length (enumerate [VRef 4; VRef 5]) = length [VRef 4; VRef 5] ∧
  (∀ i, enumerate [VRef 4; VRef 5] !! i = (λ x, (i, x)) <$> [VRef 4; VRef 5] !! i).
Proof.
  apply (iter_layers_enumerates_in_order (VRef 1) (VRef 2) (VRef 3) [VRef 4; VRef 5]
           model_store [] 3).
  - reflexivity.
  - reflexivity.
  - reflexivity.
  - simpl. lia.
Defined.

Lemma model_init_one_hook_per_layer_example :
  ∃ s',
    BertModelAdaptersMixin.init_adapters store_config 3 (VRef 1) (VRef 6)
      (mkState model_store []) = Ok tt s' ∧
    collect 3 (BertModelAdaptersMixin.iter_layers (VRef 1)) s' =
      Ok (enumerate [VRef 4; VRef 5]) s' ∧
    (∀ x, x ∈ [VRef 4; VRef 5] →
       ∃ hs, lookup_hooks model_store_configured x = Some hs ∧
             lookup_hooks (heap s') x = Some (hs ++ [ParallelHook])) ∧
    List.filter is_register (drop (length (@nil Event)) (trace s')) =
      register_events [VRef 4; VRef 5].
Proof.
  apply (model_init_one_hook_per_layer store_config (VRef 6) (VRef 1)
           model_store model_store_configured [] [VRef 4; VRef 5] 3).
  - vm_compute. reflexivity.
  - reflexivity.
  - repeat (constructor; [eexists; reflexivity|]). constructor.
  - apply (bool_decide_unpack (NoDup [VRef 4; VRef 5])). vm_compute. exact I.
  - simpl. lia.
Defined.

Lemma model_init_super_before_hooks_example :
  ∃ s' new,
    BertModelAdaptersMixin.init_adapters store_config 3 (VRef 1) (VRef 6)
      (mkState model_store []) = Ok tt s' ∧
    heap s' = add_hooks ParallelHook [VRef 4; VRef 5] model_store_configured ∧
    trace s' = [] ++ new ∧
    new = EvCall "super().init_adapters" [VRef 1; VRef 6]
            :: register_events [VRef 4; VRef 5] ∧
    length (List.filter (λ e, negb (is_register e)) new) = 1 ∧
    length (List.filter is_register new) = length [VRef 4; VRef 5] ∧
    (∀ i j e, new !! i = Some (EvCall "super().init_adapters" [VRef 1; VRef 6]) →
              new !! j = Some e → is_register e = true → i < j) ∧
    (∀ h0 t0 e h2, store_config (VRef 1) (VRef 6) h0 = Raise e h2 →
       BertModelAdaptersMixin.init_adapters store_config 3 (VRef 1) (VRef 6)
         (mkState h0 t0) =
         Raise e (mkState h2 (t0 ++ [EvCall "super().init_adapters" [VRef 1; VRef 6]]))).
Proof.
  apply (model_init_super_before_hooks store_config (VRef 6) (VRef 1)
           model_store model_store_configured [] [VRef 4; VRef 5] 3).
  - vm_compute. reflexivity.
  - reflexivity.
  - repeat (constructor; [eexists; reflexivity|]). constructor.
  - simpl. lia.
Defined.

Lemma model_init_n_times_n_hooks_example :
  ∃ s',
    BertModelAdaptersMixin.init_adapters_times store_config 3 3 (VRef 1) (VRef 6)
      (mkState model_store []) = Ok tt s' ∧
    layers_of (heap s') (VRef 1) = Some [VRef 4; VRef 5] ∧
    ∀ x, x ∈ [VRef 4; VRef 5] →
      (∃ hs, lookup_hooks model_store x = Some hs ∧
             lookup_hooks (heap s') x = Some (hs ++ replicate 3 ParallelHook)) ∧
      alignment_hooks (heap s') x = alignment_hooks model_store x + 3.
Proof.
  apply (model_init_n_times_n_hooks store_config (VRef 6) (VRef 1)
           [VRef 4; VRef 5] 3 3 model_store []).
  - exact (store_config_keeps_layers (VRef 1) (VRef 6)).
  - reflexivity.
  - repeat (constructor; [eexists; reflexivity|]). constructor.
  - apply (bool_decide_unpack (NoDup [VRef 4; VRef 5])). vm_compute. exact I.
  - simpl. lia.
Defined.

Lemma hook_returns_input_example :
  BertModelAdaptersMixin.hook align_batch (VRef 1) (VRef 2) (mkState input_store []) =
    Ok (VRef 2)
       (mkState (<[4 := mkObj "Tensor" {[ "batch" := VInt 4 ]} None None]> input_store)
                ([] ++ [EvCall "adjust_tensors_for_parallel_" [VRef 3; VRef 4]])) ∧
  (∀ module', BertModelAdaptersMixin.hook align_batch module' (VRef 2)
                (mkState input_store []) =
              BertModelAdaptersMixin.hook align_batch (VRef 1) (VRef 2)
                (mkState input_store [])).
Proof.
  apply (hook_returns_input align_batch (VRef 1) (VRef 2) (VRef 3) (VRef 4)
           [VRef 3; VRef 4] input_store).
  - reflexivity.
  - reflexivity.
  - reflexivity.
  - vm_compute. reflexivity.
Defined.

(** C9, as stated, fails on a tuple with fewer than two elements: a layer
    called with the hidden states alone hands the hook a one-element tuple,
    and [input[1]] raises [IndexError]; the hook returns nothing. *)
Lemma hook_one_element_tuple_raises :
  lookup_items input_store (VRef 5) = Some [VRef 3] ∧
  BertModelAdaptersMixin.hook align_batch (VRef 1) (VRef 5) (mkState input_store []) =
    Raise IndexError (mkState input_store []) ∧
  ¬ ∃ s', BertModelAdaptersMixin.hook align_batch (VRef 1) (VRef 5)
            (mkState input_store []) = Ok (VRef 5) s'.
Proof.
  split; [reflexivity|].
  assert (E : BertModelAdaptersMixin.hook align_batch (VRef 1) (VRef 5)
                (mkState input_store []) = Raise IndexError (mkState input_store []))
    by (vm_compute; reflexivity).
  split; [exact E|]. intros [s' Hs']. rewrite E in Hs'. discriminate.
Qed.

(** * Further properties of the code *)

Lemma getattr_Raise s v n :
  lookup_attr (heap s) v n = None → getattr v n s = Raise AttributeError s.
Proof. intros E. unfold getattr. by rewrite E. Qed.

(** ** [BertSelfAttentionAdaptersMixin.init_adapters]: errors and frame *)

(** The three wrap statements in one step: the method is its last statement
    run on the store with the three projections wrapped. *)
Lemma self_attention_init_after_wraps
    (config : Value) (h : Heap) (t : list Event) (l : loc)
    (q k v qi qo ki ko vi vo : Value) :
  lookup_attr h (VRef l) "query" = Some q →
  lookup_attr h (VRef l) "key" = Some k →
  lookup_attr h (VRef l) "value" = Some v →
  lookup_attr h q "in_features" = Some qi →
  lookup_attr h q "out_features" = Some qo →
  lookup_attr h k "in_features" = Some ki →
  lookup_attr h k "out_features" = Some ko →
  lookup_attr h v "in_features" = Some vi →
  lookup_attr h v "out_features" = Some vo →
  BertSelfAttentionAdaptersMixin.init_adapters (VRef l) config (mkState h t) =
    attach_prefix_tuning (VRef l) config
      (mkState (qkv_wrapped l config qi qo ki ko vi vo h)
               (t ++ qkv_wrap_events q k v config)).
Proof.
  intros Hq Hk Hv Hqi Hqo Hki Hko Hvi Hvo.
  unfold BertSelfAttentionAdaptersMixin.init_adapters.
  rewrite (wrap_store_Ok _ _ _ _ _ _ q qi qo) by done. cbn [heap trace].
  rewrite (wrap_store_Ok _ _ _ _ _ _ k ki ko) by (cbn [heap]; attr_frame).
  cbn [heap trace].
  rewrite (wrap_store_Ok _ _ _ _ _ _ v vi vo) by (cbn [heap]; attr_frame).
  cbn [heap trace]. unfold qkv_wrapped, qkv_wrap_events.
  by rewrite <- !app_assoc.
Qed.

Lemma qkv_wrapped_is_Some l config qi qo ki ko vi vo h l' :
  is_Some (h !! l') → is_Some (qkv_wrapped l config qi qo ki ko vi vo h !! l').
Proof. intros Hl'. unfold qkv_wrapped. alloc_mono. Qed.

Lemma qkv_wrapped_attr l config qi qo ki ko vi vo h l' n :
  n ≠ "query" → n ≠ "key" → n ≠ "value" → is_Some (h !! l') →
  lookup_attr (qkv_wrapped l config qi qo ki ko vi vo h) (VRef l') n =
  lookup_attr h (VRef l') n.
Proof.
  intros Hq Hk Hv Hl'. unfold qkv_wrapped.
  rewrite !attach_lookup_attr_frame; try done; alloc_mono.
Qed.

(** What the three wrap statements leave in [query], [key] and [value]. *)
Lemma qkv_wrapped_spec l config q k v qi qo ki ko vi vo h :
  is_Some (h !! l) →
  lookup_attr h q "in_features" = Some qi →
  lookup_attr h q "out_features" = Some qo →
  lookup_attr h k "in_features" = Some ki →
  lookup_attr h k "out_features" = Some ko →
  lookup_attr h v "in_features" = Some vi →
  lookup_attr h v "out_features" = Some vo →
  ∃ q' k' v',
    lookup_attr (qkv_wrapped l config qi qo ki ko vi vo h) (VRef l) "query" = Some q' ∧
    lookup_attr (qkv_wrapped l config qi qo ki ko vi vo h) (VRef l) "key" = Some k' ∧
    lookup_attr (qkv_wrapped l config qi qo ki ko vi vo h) (VRef l) "value" = Some v' ∧
    is_wrap_of h (qkv_wrapped l config qi qo ki ko vi vo h) q "selfattn" config (VStr "q") q' ∧
    is_wrap_of h (qkv_wrapped l config qi qo ki ko vi vo h) k "selfattn" config (VStr "k") k' ∧
    is_wrap_of h (qkv_wrapped l config qi qo ki ko vi vo h) v "selfattn" config (VStr "v") v'.
Proof.
  intros Hl Hqi Hqo Hki Hko Hvi Hvo. unfold qkv_wrapped.
  set (h1 := attach l "query" _ h).
  set (h2 := attach l "key" _ h1).
  assert (Hl1 : is_Some (h1 !! l)) by (subst h1; alloc_mono).
  assert (Hl2 : is_Some (h2 !! l)) by (subst h2; alloc_mono).
  exists (VRef (fresh_loc h)), (VRef (fresh_loc h1)), (VRef (fresh_loc h2)).
  split; [|split; [|split; [|split; [|split]]]].
  - subst h2 h1. rewrite !attach_lookup_attr_frame by done.
    by apply attach_lookup_attr_eq.
  - rewrite attach_lookup_attr_frame by done. subst h2.
    by apply attach_lookup_attr_eq.
  - by apply attach_lookup_attr_eq.
  - do 2 (apply is_wrap_of_attach; [done| |done]). by apply is_wrap_of_fresh.
  - apply is_wrap_of_attach; [done| |done].
    apply is_wrap_of_fresh; try done. intros l' Hl'. subst h1. alloc_mono.
  - apply is_wrap_of_fresh; try done. intros l' Hl'. subst h2 h1. alloc_mono.
Qed.

(** The last statement raises before it writes when the location key cannot
    be read or cannot be extended. *)
Lemma attach_prefix_tuning_AttributeError self config s :
  lookup_attr (heap s) self "location_key" = None →
  attach_prefix_tuning self config s = Raise AttributeError s.
Proof.
  intros E. unfold attach_prefix_tuning.
  by rewrite (bind_Raise _ _ _ _ _ (getattr_Raise _ _ _ E)).
Qed.

Lemma attach_prefix_tuning_TypeError self config s lk :
  lookup_attr (heap s) self "location_key" = Some lk →
  truthy lk = true → (∀ x, lk ≠ VStr x) →
  attach_prefix_tuning self config s = Raise TypeError s.
Proof.
  intros E Ht Hns. unfold attach_prefix_tuning.
  rewrite (bind_Ok _ _ _ _ _ (getattr_Ok _ _ _ _ E)), Ht.
  rewrite bind_assoc, (bind_Ok _ _ _ _ _ (getattr_Ok _ _ _ _ E)).
  destruct lk; try done. by destruct (Hns s0).
Qed.

(** X1.  When the module has no [location_key] attribute,
    [init_adapters] raises [AttributeError] only at its last statement: the
    three projections have already been replaced by their wrapped
    equivalents and the three [LoRALinear.wrap] calls are in the log, while
    [prefix_tuning] is left as it was. *)
Theorem self_attention_init_missing_location_key
    (config : Value) (h : Heap) (t : list Event) (self q k v : Value) :
  lookup_attr h self "query" = Some q →
  lookup_attr h self "key" = Some k →
  lookup_attr h self "value" = Some v →
  is_linear h q → is_linear h k → is_linear h v →
  lookup_attr h self "location_key" = None →
  ∃ s' q' k' v',
    BertSelfAttentionAdaptersMixin.init_adapters self config (mkState h t) =
      Raise AttributeError s' ∧
    trace s' = t ++ qkv_wrap_events q k v config ∧
    lookup_attr (heap s') self "prefix_tuning" = lookup_attr h self "prefix_tuning" ∧
    lookup_attr (heap s') self "query" = Some q' ∧
    lookup_attr (heap s') self "key" = Some k' ∧
    lookup_attr (heap s') self "value" = Some v' ∧
    is_wrap_of h (heap s') q "selfattn" config (VStr "q") q' ∧
    is_wrap_of h (heap s') k "selfattn" config (VStr "k") k' ∧
    is_wrap_of h (heap s') v "selfattn" config (VStr "v") v'.
Proof.
  intros Hq Hk Hv [[qi Hqi] [qo Hqo]] [[ki Hki] [ko Hko]] [[vi Hvi] [vo Hvo]] Hlk.
  destruct (lookup_attr_is_Some_ref h self "query") as (l & -> & Hl); [by eexists|].
  destruct (qkv_wrapped_spec l config q k v qi qo ki ko vi vo h)
    as (q' & k' & v' & Hq' & Hk' & Hv' & Wq & Wk & Wv); try done.
  eexists _, q', k', v'. split.
  { rewrite (self_attention_init_after_wraps config h t l q k v qi qo ki ko vi vo)
      by done.
    apply attach_prefix_tuning_AttributeError. cbn [heap].
    by rewrite qkv_wrapped_attr. }
  cbn [heap trace]. split; [done|]. split; [by rewrite qkv_wrapped_attr|].
  done.
Qed.

(** X2.  When the location key is [True] or a number other than zero, it is
    truthy and [self.location_key + "_prefix"] raises [TypeError]: no shim
    is constructed and [prefix_tuning] is left as it was, although the three
    projections have already been wrapped. *)
Theorem self_attention_init_non_string_key
    (config : Value) (h : Heap) (t : list Event) (self q k v lk : Value) :
  lookup_attr h self "query" = Some q →
  lookup_attr h self "key" = Some k →
  lookup_attr h self "value" = Some v →
  is_linear h q → is_linear h k → is_linear h v →
  lookup_attr h self "location_key" = Some lk →
  (lk = VBool true ∨ ∃ z, lk = VInt z ∧ z ≠ 0%Z) →
  ∃ s' q' k' v',
    BertSelfAttentionAdaptersMixin.init_adapters self config (mkState h t) =
      Raise TypeError s' ∧
    trace s' = t ++ qkv_wrap_events q k v config ∧
    lookup_attr (heap s') self "prefix_tuning" = lookup_attr h self "prefix_tuning" ∧
    lookup_attr (heap s') self "query" = Some q' ∧
    lookup_attr (heap s') self "key" = Some k' ∧
    lookup_attr (heap s') self "value" = Some v' ∧
    is_wrap_of h (heap s') q "selfattn" config (VStr "q") q' ∧
    is_wrap_of h (heap s') k "selfattn" config (VStr "k") k' ∧
    is_wrap_of h (heap s') v "selfattn" config (VStr "v") v'.
Proof.
  intros Hq Hk Hv [[qi Hqi] [qo Hqo]] [[ki Hki] [ko Hko]] [[vi Hvi] [vo Hvo]]
    Hlk Hnum.
  assert (Ht : truthy lk = true).
  { destruct Hnum as [->|(z & -> & Hz)]; [done|].
    simpl. by destruct (Z.eqb_spec z 0). }
  assert (Hns : ∀ x, lk ≠ VStr x).
  { intros x. by destruct Hnum as [->|(z & -> & Hz)]. }
  destruct (lookup_attr_is_Some_ref h self "query") as (l & -> & Hl); [by eexists|].
  destruct (qkv_wrapped_spec l config q k v qi qo ki ko vi vo h)
    as (q' & k' & v' & Hq' & Hk' & Hv' & Wq & Wk & Wv); try done.
  eexists _, q', k', v'. split.
  { rewrite (self_attention_init_after_wraps config h t l q k v qi qo ki ko vi vo)
      by done.
    apply (attach_prefix_tuning_TypeError _ _ _ lk); [|done..]. cbn [heap].
    by rewrite qkv_wrapped_attr. }
  cbn [heap trace]. split; [done|]. split; [by rewrite qkv_wrapped_attr|].
  done.
Qed.

(** The last statement when the key can be computed. *)
Lemma attach_prefix_tuning_Ok l config s lk key :
  lookup_attr (heap s) (VRef l) "location_key" = Some lk →
  (truthy lk = true ∧ add_str lk "_prefix" = ret key) ∨
  (truthy lk = false ∧ key = VNone) →
  attach_prefix_tuning (VRef l) config s =
    Ok tt (mkState (attach l "prefix_tuning" (shim_obj key config) (heap s))
                   (trace s ++ [EvCall "PrefixTuningShim" [key; config]])).
Proof.
  intros Hlk Hkey. unfold attach_prefix_tuning.
  rewrite (bind_Ok _ _ _ _ _ (getattr_Ok _ _ _ _ Hlk)).
  assert (Hrun : (if truthy lk
                  then lk0 <- getattr (VRef l) "location_key" ;; add_str lk0 "_prefix"
                  else ret VNone) s = Ok key s).
  { destruct Hkey as [[-> Ha]|[-> ->]]; [|done].
    rewrite (bind_Ok _ _ _ _ _ (getattr_Ok _ _ _ _ Hlk)). by rewrite Ha. }
  rewrite (bind_Ok _ _ _ _ _ Hrun).
  rewrite (bind_Ok _ _ _ _ _ (call_shim_Ok _ _ _ _ _)).
  destruct (lookup_attr_is_Some_ref (heap s) (VRef l) "location_key")
    as (l' & [= <-] & [o Ho]); [by eexists|].
  erewrite setattr_Ok.
  - cbn [heap trace]. unfold attach. by rewrite Ho.
  - cbn [heap]. rewrite lookup_insert_ne; [done | by eapply fresh_loc_ne].
Qed.

(** The key a location key that is a string or [None] leads to. *)
Lemma optional_str_key lk :
  lk = VNone ∨ (∃ x, lk = VStr x) →
  ∃ key, (truthy lk = true ∧ add_str lk "_prefix" = ret key) ∨
         (truthy lk = false ∧ key = VNone).
Proof.
  intros [->|[x ->]]; [exists VNone; by right|].
  destruct (truthy (VStr x)) eqn:E; [|exists VNone; by right].
  exists (VStr (String.append x "_prefix")). by left.
Qed.

(** The whole method in closed form. *)
Lemma self_attention_init_Ok
    (config : Value) (h : Heap) (t : list Event) (l : loc)
    (q k v lk key qi qo ki ko vi vo : Value) :
  lookup_attr h (VRef l) "query" = Some q →
  lookup_attr h (VRef l) "key" = Some k →
  lookup_attr h (VRef l) "value" = Some v →
  lookup_attr h q "in_features" = Some qi →
  lookup_attr h q "out_features" = Some qo →
  lookup_attr h k "in_features" = Some ki →
  lookup_attr h k "out_features" = Some ko →
  lookup_attr h v "in_features" = Some vi →
  lookup_attr h v "out_features" = Some vo →
  lookup_attr h (VRef l) "location_key" = Some lk →
  (truthy lk = true ∧ add_str lk "_prefix" = ret key) ∨
  (truthy lk = false ∧ key = VNone) →
  BertSelfAttentionAdaptersMixin.init_adapters (VRef l) config (mkState h t) =
    Ok tt (mkState
             (attach l "prefix_tuning" (shim_obj key config)
                (qkv_wrapped l config qi qo ki ko vi vo h))
             ((t ++ qkv_wrap_events q k v config)
                ++ [EvCall "PrefixTuningShim" [key; config]])).
Proof.
  intros Hq Hk Hv Hqi Hqo Hki Hko Hvi Hvo Hlk Hkey.
  rewrite (self_attention_init_after_wraps config h t l q k v qi qo ki ko vi vo)
    by done.
  rewrite (attach_prefix_tuning_Ok l config _ lk key); [done| |done].
  destruct (lookup_attr_is_Some_ref h (VRef l) "query") as (l' & [= <-] & Hl);
    [by eexists|].
  cbn [heap]. by rewrite qkv_wrapped_attr.
Qed.

(** What a successful call leaves on the module, for reuse. *)
Lemma self_attention_init_post
    (config : Value) (h : Heap) (t : list Event) (l : loc)
    (q k v lk key : Value) :
  lookup_attr h (VRef l) "query" = Some q →
  lookup_attr h (VRef l) "key" = Some k →
  lookup_attr h (VRef l) "value" = Some v →
  is_linear h q → is_linear h k → is_linear h v →
  lookup_attr h (VRef l) "location_key" = Some lk →
  (truthy lk = true ∧ add_str lk "_prefix" = ret key) ∨
  (truthy lk = false ∧ key = VNone) →
  ∃ h' q' k' v' p,
    BertSelfAttentionAdaptersMixin.init_adapters (VRef l) config (mkState h t) =
      Ok tt (mkState h' ((t ++ qkv_wrap_events q k v config)
                           ++ [EvCall "PrefixTuningShim" [key; config]])) ∧
    lookup_attr h' (VRef l) "query" = Some q' ∧
    lookup_attr h' (VRef l) "key" = Some k' ∧
    lookup_attr h' (VRef l) "value" = Some v' ∧
    is_wrap_of h h' q "selfattn" config (VStr "q") q' ∧
    is_wrap_of h h' k "selfattn" config (VStr "k") k' ∧
    is_wrap_of h h' v "selfattn" config (VStr "v") v' ∧
    lookup_attr h' (VRef l) "prefix_tuning" = Some (VRef p) ∧
    h !! p = None ∧
    h' !! p = Some (shim_obj key config) ∧
    lookup_attr h' (VRef l) "location_key" = Some lk.
Proof.
  intros Hq Hk Hv [[qi Hqi] [qo Hqo]] [[ki Hki] [ko Hko]] [[vi Hvi] [vo Hvo]] Hlk Hkey.
  destruct (lookup_attr_is_Some_ref h (VRef l) "query") as (l0 & [= <-] & Hl);
    [by eexists|].
  destruct (qkv_wrapped_spec l config q k v qi qo ki ko vi vo h)
    as (q' & k' & v' & Hq' & Hk' & Hv' & Wq & Wk & Wv); try done.
  set (h3 := qkv_wrapped l config qi qo ki ko vi vo h) in *.
  assert (Hl3 : is_Some (h3 !! l)) by by apply qkv_wrapped_is_Some.
  exists (attach l "prefix_tuning" (shim_obj key config) h3), q', k', v', (fresh_loc h3).
  split.
  { by apply (self_attention_init_Ok config h t l q k v lk key qi qo ki ko vi vo). }
  split; [by rewrite attach_lookup_attr_frame|].
  split; [by rewrite attach_lookup_attr_frame|].
  split; [by rewrite attach_lookup_attr_frame|].
  split; [by apply is_wrap_of_attach|].
  split; [by apply is_wrap_of_attach|].
  split; [by apply is_wrap_of_attach|].
  split; [by apply attach_lookup_attr_eq|].
  split; [apply fresh_loc_mono_None; intros l' Hl'; by apply qkv_wrapped_is_Some|].
  split; [by apply attach_lookup_new|].
  rewrite attach_lookup_attr_frame by done. subst h3. by rewrite qkv_wrapped_attr.
Qed.

Lemma is_wrap_of_linear h h' orig role config ak new :
  is_wrap_of h h' orig role config ak new → is_linear h' new.
Proof.
  intros (l & a & b & -> & _ & _ & Ha & Hb & _ & Ha' & Hb').
  split; [rewrite Ha', Ha|rewrite Hb', Hb]; by eexists.
Qed.

Lemma is_wrap_of_dims h h' orig role config ak new :
  is_wrap_of h h' orig role config ak new →
  lookup_attr h' new "in_features" = lookup_attr h orig "in_features" ∧
  lookup_attr h' new "out_features" = lookup_attr h orig "out_features".
Proof. by intros (l & a & b & _ & _ & _ & _ & _ & _ & Ha' & Hb'). Qed.

(** X4.  [init_adapters] on a self-attention module is not idempotent: a
    second call succeeds and wraps again.  [query], [key] and [value] then
    refer to new objects, wrapped equivalents of the wrapped layers of the
    first call (which the module no longer refers to), still with the
    dimensions of the original layers, and [prefix_tuning] refers to a second,
    new shim. *)
Theorem self_attention_init_twice
    (config : Value) (h : Heap) (t : list Event) (self q k v lk : Value) :
  lookup_attr h self "query" = Some q →
  lookup_attr h self "key" = Some k →
  lookup_attr h self "value" = Some v →
  is_linear h q → is_linear h k → is_linear h v →
  lookup_attr h self "location_key" = Some lk →
  (lk = VNone ∨ ∃ x, lk = VStr x) →
  ∃ s1 s2 q1 k1 v1 q2 k2 v2 p1 p2,
    BertSelfAttentionAdaptersMixin.init_adapters self config (mkState h t) = Ok tt s1 ∧
    BertSelfAttentionAdaptersMixin.init_adapters self config s1 = Ok tt s2 ∧
    lookup_attr (heap s1) self "query" = Some q1 ∧
    lookup_attr (heap s1) self "key" = Some k1 ∧
    lookup_attr (heap s1) self "value" = Some v1 ∧
    lookup_attr (heap s2) self "query" = Some q2 ∧
    lookup_attr (heap s2) self "key" = Some k2 ∧
    lookup_attr (heap s2) self "value" = Some v2 ∧
    is_wrap_of (heap s1) (heap s2) q1 "selfattn" config (VStr "q") q2 ∧
    is_wrap_of (heap s1) (heap s2) k1 "selfattn" config (VStr "k") k2 ∧
    is_wrap_of (heap s1) (heap s2) v1 "selfattn" config (VStr "v") v2 ∧
    lookup_attr (heap s2) q2 "in_features" = lookup_attr h q "in_features" ∧
    lookup_attr (heap s2) q2 "out_features" = lookup_attr h q "out_features" ∧
    lookup_attr (heap s2) k2 "in_features" = lookup_attr h k "in_features" ∧
    lookup_attr (heap s2) k2 "out_features" = lookup_attr h k "out_features" ∧
    lookup_attr (heap s2) v2 "in_features" = lookup_attr h v "in_features" ∧
    lookup_attr (heap s2) v2 "out_features" = lookup_attr h v "out_features" ∧
    lookup_attr (heap s1) self "prefix_tuning" = Some (VRef p1) ∧
    lookup_attr (heap s2) self "prefix_tuning" = Some (VRef p2) ∧
    p1 ≠ p2 ∧
    length (trace s2) = length t + 8.
Proof.
  intros Hq Hk Hv Lq Lk Lv Hlk Hty.
  destruct (lookup_attr_is_Some_ref h self "query") as (l & -> & Hl); [by eexists|].
  destruct (optional_str_key lk Hty) as [key Hkey].
  destruct (self_attention_init_post config h t l q k v lk key)
    as (h1 & q1 & k1 & v1 & p1 & Hrun1 & Hq1 & Hk1 & Hv1 & Wq1 & Wk1 & Wv1
        & Hp1 & Hn1 & Ho1 & Hlk1); try done.
  set (t1 := (t ++ _) ++ _) in Hrun1.
  destruct (self_attention_init_post config h1 t1 l q1 k1 v1 lk key)
    as (h2 & q2 & k2 & v2 & p2 & Hrun2 & Hq2 & Hk2 & Hv2 & Wq2 & Wk2 & Wv2
        & Hp2 & Hn2 & Ho2 & Hlk2); try done; eauto using is_wrap_of_linear.
  eexists (mkState h1 t1), _, q1, k1, v1, q2, k2, v2, p1, p2.
  split; [exact Hrun1|]. split; [exact Hrun2|]. cbn [heap trace].
  destruct (is_wrap_of_dims _ _ _ _ _ _ _ Wq1) as [Eq1 Eq1'].
  destruct (is_wrap_of_dims _ _ _ _ _ _ _ Wk1) as [Ek1 Ek1'].
  destruct (is_wrap_of_dims _ _ _ _ _ _ _ Wv1) as [Ev1 Ev1'].
  destruct (is_wrap_of_dims _ _ _ _ _ _ _ Wq2) as [Eq2 Eq2'].
  destruct (is_wrap_of_dims _ _ _ _ _ _ _ Wk2) as [Ek2 Ek2'].
  destruct (is_wrap_of_dims _ _ _ _ _ _ _ Wv2) as [Ev2 Ev2'].
  repeat (split; [first [done | congruence]|]).
  subst t1. rewrite !length_app. simpl. lia.
Qed.

(** ** [BertLayerAdaptersMixin.init_adapters]: the dense layers, errors,
       frame *)

Lemma store_attr_attr_name l n x h v n' :
  n ≠ n' → lookup_attr (store_attr l n x h) v n' = lookup_attr h v n'.
Proof.
  intros Hn. unfold store_attr. destruct (h !! l) as [o|] eqn:E; [|done].
  by apply lookup_attr_store_name.
Qed.

Lemma store_attr_attr_eq l n x h :
  is_Some (h !! l) → lookup_attr (store_attr l n x h) (VRef l) n = Some x.
Proof.
  intros [o E]. unfold store_attr. rewrite E. apply lookup_attr_store_eq.
Qed.

Lemma store_attr_attr_loc l n x h l' n' :
  l ≠ l' → lookup_attr (store_attr l n x h) (VRef l') n' = lookup_attr h (VRef l') n'.
Proof.
  intros Hl. unfold store_attr. destruct (h !! l) as [o|] eqn:E; [|done].
  by apply lookup_attr_store_loc.
Qed.

Lemma store_attr_other l n x h l' :
  l ≠ l' → store_attr l n x h !! l' = h !! l'.
Proof.
  intros Hl. unfold store_attr. destruct (h !! l) as [o|] eqn:E; [|done].
  by rewrite lookup_insert_ne.
Qed.

Lemma store_attr_is_Some l n x h l' :
  is_Some (store_attr l n x h !! l') ↔ is_Some (h !! l').
Proof.
  unfold store_attr. destruct (h !! l) as [o|] eqn:E; [|done].
  destruct (decide (l = l')) as [<-|Hne].
  - rewrite lookup_insert_eq, E. split; by eexists.
  - by rewrite lookup_insert_ne.
Qed.

Lemma setattr_store_attr s l n x :
  is_Some (heap s !! l) →
  setattr (VRef l) n x s = Ok tt (mkState (store_attr l n x (heap s)) (trace s)).
Proof.
  intros [o E]. rewrite (setattr_Ok _ _ _ _ _ E). unfold store_attr. by rewrite E.
Qed.

Lemma dense_wrapped_frame li lo config di do ei eo h :
  dense_frame h (dense_wrapped li lo config di do ei eo h).
Proof. unfold dense_wrapped. do 2 apply dense_frame_attach. apply dense_frame_refl. Qed.

(** The two wrap statements in one step, for distinct intermediate and
    output modules. *)
Lemma layer_init_after_wraps
    (config : Value) (h : Heap) (t : list Event) (self d e di do ei eo : Value)
    (li lo : loc) :
  lookup_attr h self "intermediate" = Some (VRef li) →
  lookup_attr h (VRef li) "dense" = Some d →
  lookup_attr h d "in_features" = Some di →
  lookup_attr h d "out_features" = Some do →
  lookup_attr h self "output" = Some (VRef lo) →
  lookup_attr h (VRef lo) "dense" = Some e →
  lookup_attr h e "in_features" = Some ei →
  lookup_attr h e "out_features" = Some eo →
  li ≠ lo →
  BertLayerAdaptersMixin.init_adapters self config (mkState h t) =
    set_location_keys self
      (mkState (dense_wrapped li lo config di do ei eo h)
               (t ++ dense_wrap_events d e config)).
Proof.
  intros Hi Hd Hdi Hdo Ho He Hei Heo Hne.
  unfold BertLayerAdaptersMixin.init_adapters.
  rewrite (wrap_store_sub_Ok _ self "intermediate" li "dense" _ _ _ d di do) by done.
  cbn [heap trace].
  set (h1 := attach li "dense" _ h).
  assert (F1 : dense_frame h h1) by apply dense_frame_attach, dense_frame_refl.
  assert (Hli : is_Some (h !! li))
    by (by destruct (lookup_attr_is_Some_ref h (VRef li) "dense")
             as (? & [= <-] & ?); [by eexists|]).
  assert (Hlo : is_Some (h !! lo))
    by (by destruct (lookup_attr_is_Some_ref h (VRef lo) "dense")
             as (? & [= <-] & ?); [by eexists|]).
  rewrite (wrap_store_sub_Ok _ self "output" lo "dense" _ _ _ e ei eo).
  - cbn [heap trace]. unfold dense_wrapped, dense_wrap_events.
    by rewrite <- app_assoc.
  - by apply (dense_frame_attr h).
  - cbn [heap]. subst h1. simpl. rewrite attach_lookup_other by done. exact He.
  - cbn [heap]. subst h1. rewrite attach_lookup_attr_ne; [done..|by eexists].
  - cbn [heap]. subst h1. rewrite attach_lookup_attr_ne; [done..|by eexists].
Qed.

(** The location-key statements in closed form. *)
Lemma set_location_keys_Ok s self a flag lsa olsx :
  lookup_attr (heap s) self "attention" = Some a →
  lookup_attr (heap s) a "self" = Some (VRef lsa) →
  is_Some (heap s !! lsa) →
  lookup_attr (heap s) self "add_cross_attention" = Some flag →
  cross_target (heap s) self flag olsx →
  set_location_keys self s =
    Ok tt (mkState
             (let h3 := store_attr lsa "location_key" (VStr "self") (heap s) in
              match olsx with
              | Some lsx => store_attr lsx "location_key" (VStr "cross") h3
              | None => h3
              end)
             (trace s)).
Proof.
  intros Ha Hsa Hlsa Hflag Hcross. unfold set_location_keys.
  rewrite (bind_Ok _ _ _ _ _ (getattr_Ok _ _ _ _ Ha)).
  rewrite (bind_Ok _ _ _ _ _ (getattr_Ok _ _ _ _ Hsa)).
  rewrite (bind_Ok _ _ _ _ _ (setattr_store_attr _ _ _ _ Hlsa)).
  set (h3 := store_attr lsa "location_key" (VStr "self") (heap s)).
  erewrite bind_Ok;
    [|apply getattr_Ok; cbn [heap]; subst h3; by rewrite store_attr_attr_name].
  unfold cross_target in Hcross. destruct (truthy flag).
  - destruct Hcross as (x & lsx & -> & Hx & Hsx & Hlsx).
    erewrite bind_Ok;
      [|apply getattr_Ok; cbn [heap]; subst h3; by rewrite store_attr_attr_name].
    erewrite bind_Ok;
      [|apply getattr_Ok; cbn [heap]; subst h3; by rewrite store_attr_attr_name].
    rewrite setattr_store_attr; [done|]. cbn [heap]. by apply store_attr_is_Some.
  - by subst olsx.
Qed.

(** With a true flag and no [crossattention] attribute the statements raise
    after the self-attention key has been written. *)
Lemma set_location_keys_missing_cross s self a flag lsa :
  lookup_attr (heap s) self "attention" = Some a →
  lookup_attr (heap s) a "self" = Some (VRef lsa) →
  is_Some (heap s !! lsa) →
  lookup_attr (heap s) self "add_cross_attention" = Some flag →
  truthy flag = true →
  lookup_attr (heap s) self "crossattention" = None →
  set_location_keys self s =
    Raise AttributeError
      (mkState (store_attr lsa "location_key" (VStr "self") (heap s)) (trace s)).
Proof.
  intros Ha Hsa Hlsa Hflag Ht Hx. unfold set_location_keys.
  rewrite (bind_Ok _ _ _ _ _ (getattr_Ok _ _ _ _ Ha)).
  rewrite (bind_Ok _ _ _ _ _ (getattr_Ok _ _ _ _ Hsa)).
  rewrite (bind_Ok _ _ _ _ _ (setattr_store_attr _ _ _ _ Hlsa)).
  erewrite bind_Ok;
    [|apply getattr_Ok; cbn [heap]; by rewrite store_attr_attr_name].
  rewrite Ht. apply bind_Raise, getattr_Raise. cbn [heap].
  by rewrite store_attr_attr_name.
Qed.

Lemma cross_target_frame h h' self flag olsx :
  dense_frame h h' → cross_target h self flag olsx → cross_target h' self flag olsx.
Proof.
  intros F. unfold cross_target. destruct (truthy flag); [|done].
  intros (x & lsx & -> & Hx & Hsx & Hlsx). exists x, lsx.
  split; [done|]. split; [by apply (dense_frame_attr h)|].
  split; [by apply (dense_frame_attr h)|]. by apply F.
Qed.

Lemma cross_target_Some h self flag lsx :
  cross_target h self flag (Some lsx) →
  truthy flag = true ∧ is_Some (h !! lsx) ∧
  ∃ x, lookup_attr h self "crossattention" = Some x ∧
       lookup_attr h x "self" = Some (VRef lsx).
Proof.
  unfold cross_target. destruct (truthy flag); [|done].
  intros (x & lsx' & [= <-] & Hx & Hsx & Hlsx). eauto.
Qed.

(** The whole method in closed form. *)
Lemma layer_init_Ok
    (config : Value) (h : Heap) (t : list Event)
    (self d e a flag di do ei eo : Value) (li lo lsa : loc) (olsx : option loc) :
  lookup_attr h self "intermediate" = Some (VRef li) →
  lookup_attr h (VRef li) "dense" = Some d →
  lookup_attr h d "in_features" = Some di →
  lookup_attr h d "out_features" = Some do →
  lookup_attr h self "output" = Some (VRef lo) →
  lookup_attr h (VRef lo) "dense" = Some e →
  lookup_attr h e "in_features" = Some ei →
  lookup_attr h e "out_features" = Some eo →
  li ≠ lo →
  lookup_attr h self "attention" = Some a →
  lookup_attr h a "self" = Some (VRef lsa) →
  is_Some (h !! lsa) →
  lookup_attr h self "add_cross_attention" = Some flag →
  cross_target h self flag olsx →
  BertLayerAdaptersMixin.init_adapters self config (mkState h t) =
    Ok tt (mkState (layer_final li lo lsa olsx config di do ei eo h)
                   (t ++ dense_wrap_events d e config)).
Proof.
  intros Hi Hd Hdi Hdo Ho He Hei Heo Hne Ha Hsa Hlsa Hflag Hcross.
  rewrite (layer_init_after_wraps config h t self d e di do ei eo li lo) by done.
  pose proof (dense_wrapped_frame li lo config di do ei eo h) as F.
  rewrite (set_location_keys_Ok _ self a flag lsa olsx); cbn [heap trace].
  - done.
  - by apply (dense_frame_attr h).
  - by apply (dense_frame_attr h).
  - by apply F.
  - by apply (dense_frame_attr h).
  - by apply (cross_target_frame h).
Qed.

Lemma is_wrap_of_store_attr h h' orig role config ak new l n x :
  is_wrap_of h h' orig role config ak new →
  is_Some (h !! l) →
  is_wrap_of h (store_attr l n x h') orig role config ak new.
Proof.
  intros (l' & a & b & -> & Hnone & Hne & Ha & Hb & Hobj & Ha' & Hb') Hl.
  assert (l ≠ l') by (intros ->; destruct Hl as [? Hl]; congruence).
  exists l', a, b. repeat split; try done.
  - by rewrite store_attr_other.
  - by rewrite store_attr_attr_loc.
  - by rewrite store_attr_attr_loc.
Qed.

Lemma attach_lookup_attr_other l n new h l' n' :
  l' ≠ l → is_Some (h !! l') →
  lookup_attr (attach l n new h) (VRef l') n' = lookup_attr h (VRef l') n'.
Proof. intros Hne Hl'. simpl. by rewrite attach_lookup_other. Qed.

(** What the two wrap statements leave in the two [dense] attributes. *)
Lemma dense_wrapped_spec li lo config d e di do ei eo h :
  is_Some (h !! li) → is_Some (h !! lo) → li ≠ lo →
  lookup_attr h d "in_features" = Some di →
  lookup_attr h d "out_features" = Some do →
  lookup_attr h e "in_features" = Some ei →
  lookup_attr h e "out_features" = Some eo →
  ∃ d' e',
    lookup_attr (dense_wrapped li lo config di do ei eo h) (VRef li) "dense" = Some d' ∧
    lookup_attr (dense_wrapped li lo config di do ei eo h) (VRef lo) "dense" = Some e' ∧
    is_wrap_of h (dense_wrapped li lo config di do ei eo h) d "intermediate" config VNone d' ∧
    is_wrap_of h (dense_wrapped li lo config di do ei eo h) e "output" config VNone e'.
Proof.
  intros Hli Hlo Hne Hdi Hdo Hei Heo. unfold dense_wrapped.
  set (h1 := attach li "dense" _ h).
  assert (Hlo1 : is_Some (h1 !! lo)) by (subst h1; alloc_mono).
  assert (Hli1 : is_Some (h1 !! li)) by (subst h1; alloc_mono).
  exists (VRef (fresh_loc h)), (VRef (fresh_loc h1)).
  split; [|split; [|split]].
  - rewrite attach_lookup_attr_other by done.
    subst h1. by apply attach_lookup_attr_eq.
  - by apply attach_lookup_attr_eq.
  - apply is_wrap_of_attach; [done| |done]. by apply is_wrap_of_fresh.
  - apply is_wrap_of_fresh; try done. intros l' Hl'. subst h1. alloc_mono.
Qed.

Lemma layer_final_dense li lo lsa olsx config di do ei eo h v :
  lookup_attr (layer_final li lo lsa olsx config di do ei eo h) v "dense" =
  lookup_attr (dense_wrapped li lo config di do ei eo h) v "dense".
Proof.
  unfold layer_final. destruct olsx; by rewrite ?store_attr_attr_name.
Qed.

Lemma layer_final_attr li lo lsa olsx config di do ei eo h l' n :
  n ≠ "dense" → n ≠ "location_key" → is_Some (h !! l') →
  lookup_attr (layer_final li lo lsa olsx config di do ei eo h) (VRef l') n =
  lookup_attr h (VRef l') n.
Proof.
  intros Hd Hk Hl'. unfold layer_final.
  destruct olsx; rewrite ?store_attr_attr_name by done;
    by apply (dense_wrapped_frame li lo config di do ei eo h).
Qed.

Lemma layer_final_wrap li lo lsa olsx config di do ei eo h orig role ak new :
  is_Some (h !! lsa) → (∀ lsx, olsx = Some lsx → is_Some (h !! lsx)) →
  is_wrap_of h (dense_wrapped li lo config di do ei eo h) orig role config ak new →
  is_wrap_of h (layer_final li lo lsa olsx config di do ei eo h) orig role config ak new.
Proof.
  intros Hlsa Hlsx W. unfold layer_final. destruct olsx as [lsx|].
  - apply is_wrap_of_store_attr; [|by apply Hlsx]. by apply is_wrap_of_store_attr.
  - by apply is_wrap_of_store_attr.
Qed.


(** X5.  The first two statements of [BertLayerAdaptersMixin.init_adapters]:
    on a layer with distinct intermediate and output modules whose [dense]
    attributes are linear layers, a successful call leaves
    [self.intermediate.dense] and [self.output.dense] referring to new
    objects, the wrapped equivalents made by [LoRALinear.wrap] with the roles
    "intermediate" and "output", no attention-role key, and the dimensions of
    the original layers; [self.intermediate] and [self.output] are the
    modules they were. *)
Theorem layer_init_wraps_dense
    (config : Value) (h : Heap) (t : list Event)
    (self d e a flag : Value) (li lo lsa : loc) (olsx : option loc) :
  lookup_attr h self "intermediate" = Some (VRef li) →
  lookup_attr h (VRef li) "dense" = Some d → is_linear h d →
  lookup_attr h self "output" = Some (VRef lo) →
  lookup_attr h (VRef lo) "dense" = Some e → is_linear h e →
  li ≠ lo →
  lookup_attr h self "attention" = Some a →
  lookup_attr h a "self" = Some (VRef lsa) → is_Some (h !! lsa) →
  lookup_attr h self "add_cross_attention" = Some flag →
  cross_target h self flag olsx →
  ∃ s' d' e',
    BertLayerAdaptersMixin.init_adapters self config (mkState h t) = Ok tt s' ∧
    trace s' = t ++ dense_wrap_events d e config ∧
    lookup_attr (heap s') self "intermediate" = Some (VRef li) ∧
    lookup_attr (heap s') self "output" = Some (VRef lo) ∧
    lookup_attr (heap s') (VRef li) "dense" = Some d' ∧
    lookup_attr (heap s') (VRef lo) "dense" = Some e' ∧
    is_wrap_of h (heap s') d "intermediate" config VNone d' ∧
    is_wrap_of h (heap s') e "output" config VNone e'.
Proof.
  intros Hi Hd [[di Hdi] [do Hdo]] Ho He [[ei Hei] [eo Heo]] Hne Ha Hsa Hlsa
    Hflag Hcross.
  assert (Hli : is_Some (h !! li))
    by (by destruct (lookup_attr_is_Some_ref h (VRef li) "dense")
             as (? & [= <-] & ?); [by eexists|]).
  assert (Hlo : is_Some (h !! lo))
    by (by destruct (lookup_attr_is_Some_ref h (VRef lo) "dense")
             as (? & [= <-] & ?); [by eexists|]).
  destruct (lookup_attr_is_Some_ref h self "output") as (l & -> & Hl); [by eexists|].
  destruct (dense_wrapped_spec li lo config d e di do ei eo h)
    as (d' & e' & Hd' & He' & Wd & We); try done.
  assert (Hx : ∀ lsx, olsx = Some lsx → is_Some (h !! lsx)).
  { intros lsx ->. by destruct (cross_target_Some _ _ _ _ Hcross) as (_ & ? & _). }
  eexists _, d', e'. split.
  { by apply (layer_init_Ok config h t (VRef l) d e a flag di do ei eo li lo lsa olsx). }
  cbn [heap trace]. split; [done|].
  split; [by rewrite layer_final_attr|]. split; [by rewrite layer_final_attr|].
  split; [by rewrite layer_final_dense|]. split; [by rewrite layer_final_dense|].
  split; by apply layer_final_wrap.
Qed.

(** X6.  A layer whose [add_cross_attention] flag is [True] but which has no
    [crossattention] attribute makes [init_adapters] raise [AttributeError]
    at the last statement only: by then both dense layers have been replaced
    by their wrapped equivalents and [self.attention.self.location_key] is
    "self"; nothing is rolled back. *)
Theorem layer_init_missing_crossattention
    (config : Value) (h : Heap) (t : list Event)
    (self d e a : Value) (li lo lsa : loc) :
  lookup_attr h self "intermediate" = Some (VRef li) →
  lookup_attr h (VRef li) "dense" = Some d → is_linear h d →
  lookup_attr h self "output" = Some (VRef lo) →
  lookup_attr h (VRef lo) "dense" = Some e → is_linear h e →
  li ≠ lo →
  lookup_attr h self "attention" = Some a →
  lookup_attr h a "self" = Some (VRef lsa) → is_Some (h !! lsa) →
  lookup_attr h self "add_cross_attention" = Some (VBool true) →
  lookup_attr h self "crossattention" = None →
  ∃ s' d' e',
    BertLayerAdaptersMixin.init_adapters self config (mkState h t) =
      Raise AttributeError s' ∧
    trace s' = t ++ dense_wrap_events d e config ∧
    lookup_attr (heap s') (VRef lsa) "location_key" = Some (VStr "self") ∧
    lookup_attr (heap s') (VRef li) "dense" = Some d' ∧
    lookup_attr (heap s') (VRef lo) "dense" = Some e' ∧
    is_wrap_of h (heap s') d "intermediate" config VNone d' ∧
    is_wrap_of h (heap s') e "output" config VNone e'.
Proof.
  intros Hi Hd [[di Hdi] [do Hdo]] Ho He [[ei Hei] [eo Heo]] Hne Ha Hsa Hlsa
    Hflag Hx.
  assert (Hli : is_Some (h !! li))
    by (by destruct (lookup_attr_is_Some_ref h (VRef li) "dense")
             as (? & [= <-] & ?); [by eexists|]).
  assert (Hlo : is_Some (h !! lo))
    by (by destruct (lookup_attr_is_Some_ref h (VRef lo) "dense")
             as (? & [= <-] & ?); [by eexists|]).
  destruct (lookup_attr_is_Some_ref h self "output") as (l & -> & Hl); [by eexists|].
  destruct (dense_wrapped_spec li lo config d e di do ei eo h)
    as (d' & e' & Hd' & He' & Wd & We); try done.
  pose proof (dense_wrapped_frame li lo config di do ei eo h) as F.
  eexists _, d', e'. split.
  { rewrite (layer_init_after_wraps config h t (VRef l) d e di do ei eo li lo) by done.
    apply (set_location_keys_missing_cross _ (VRef l) a (VBool true) lsa); cbn [heap];
      try done; try (by apply (dense_frame_attr h)).
    - by apply F.
    - destruct F as [_ F]. by rewrite F. }
  cbn [heap trace]. split; [done|].
  split; [apply store_attr_attr_eq; by apply F|].
  split; [by rewrite store_attr_attr_name|].
  split; [by rewrite store_attr_attr_name|].
  split; by apply is_wrap_of_store_attr.
Qed.


(** ** The output mixins: an exception of the generic initialization *)

Lemma output_init_delegate_raises (AL : Value → Value → Ext unit)
    key self config h t l e h2 :
  self = VRef l → is_Some (h !! l) →
  AL self config (store_attr l "location_key" (VStr key) h) = Raise e h2 →
  (setattr self "location_key" (VStr key) ;;
   call "AdapterLayer.init_adapters" [self; config] (AL self config)) (mkState h t) =
    Raise e (mkState h2 (t ++ [EvCall "AdapterLayer.init_adapters" [self; config]])).
Proof.
  intros -> Hl Hr.
  rewrite (bind_Ok _ _ _ _ _ (setattr_store_attr (mkState h t) _ _ _ Hl)).
  by apply call_Raise.
Qed.

(** X9.  Neither output mixin catches what [AdapterLayer.init_adapters]
    raises: the exception leaves [init_adapters] with the store the generic
    initialization left, and the generic initialization had been called on a
    store in which the fixed key was already assigned (and everything else
    as before), so a failed initialization still leaves the key set unless
    the generic code removed it. *)
Theorem output_mixins_delegate_raises
    (AL : Value → Value → Ext unit) (config : Value) (l : loc) (h h2 h3 : Heap)
    (t : list Event) (e e' : Error) :
  is_Some (h !! l) →
  AL (VRef l) config (store_attr l "location_key" (VStr "mh_adapter") h) = Raise e h2 →
  AL (VRef l) config (store_attr l "location_key" (VStr "output_adapter") h) = Raise e' h3 →
  BertSelfOutputAdaptersMixin.init_adapters AL (VRef l) config (mkState h t) =
    Raise e (mkState h2 (t ++ [EvCall "AdapterLayer.init_adapters" [VRef l; config]])) ∧
  BertOutputAdaptersMixin.init_adapters AL (VRef l) config (mkState h t) =
    Raise e' (mkState h3 (t ++ [EvCall "AdapterLayer.init_adapters" [VRef l; config]])) ∧
  lookup_attr (store_attr l "location_key" (VStr "mh_adapter") h) (VRef l)
    "location_key" = Some (VStr "mh_adapter") ∧
  lookup_attr (store_attr l "location_key" (VStr "output_adapter") h) (VRef l)
    "location_key" = Some (VStr "output_adapter").
Proof.
  intros Hl H2 H3.
  split; [by apply (output_init_delegate_raises AL "mh_adapter" _ _ _ _ l)|].
  split; [by apply (output_init_delegate_raises AL "output_adapter" _ _ _ _ l)|].
  split; by apply store_attr_attr_eq.
Qed.

(** ** [BertModelAdaptersMixin]: errors, shared layers, frame *)

Lemma enum_step_TypeError s seq i :
  lookup_items (heap s) seq = None → enum_step seq i s = Raise TypeError s.
Proof. intros E. unfold enum_step. by rewrite E. Qed.

(** The first [next] of a fresh generator, case by case. *)
Lemma gen_next_fresh_no_encoder s self :
  lookup_attr (heap s) self "encoder" = None →
  gen_next (GenFresh self) s = Raise AttributeError s.
Proof. intros E. simpl. by apply bind_Raise, getattr_Raise. Qed.

Lemma gen_next_fresh_no_layer s self enc :
  lookup_attr (heap s) self "encoder" = Some enc →
  lookup_attr (heap s) enc "layer" = None →
  gen_next (GenFresh self) s = Raise AttributeError s.
Proof.
  intros E El. simpl. rewrite (bind_Ok _ _ _ _ _ (getattr_Ok _ _ _ _ E)).
  by apply bind_Raise, getattr_Raise.
Qed.

Lemma gen_next_fresh_not_iterable s self enc seq :
  lookup_attr (heap s) self "encoder" = Some enc →
  lookup_attr (heap s) enc "layer" = Some seq →
  lookup_items (heap s) seq = None →
  gen_next (GenFresh self) s = Raise TypeError s.
Proof.
  intros E El Ei. simpl. rewrite (bind_Ok _ _ _ _ _ (getattr_Ok _ _ _ _ E)).
  rewrite (bind_Ok _ _ _ _ _ (getattr_Ok _ _ _ _ El)).
  by apply enum_step_TypeError.
Qed.

(** What a store offers in place of the layers when the walk cannot start:
    the exception of the first [next]. *)
Lemma layers_error_gen_next s self e :
  ((lookup_attr (heap s) self "encoder" = None ∧ e = AttributeError) ∨
   (∃ enc, lookup_attr (heap s) self "encoder" = Some enc ∧
           lookup_attr (heap s) enc "layer" = None ∧ e = AttributeError) ∨
   (∃ enc seq, lookup_attr (heap s) self "encoder" = Some enc ∧
               lookup_attr (heap s) enc "layer" = Some seq ∧
               lookup_items (heap s) seq = None ∧ (∀ x, seq ≠ VStr x) ∧
               e = TypeError)) →
  gen_next (GenFresh self) s = Raise e s.
Proof.
  intros [[E ->]|[(enc & E & El & ->)|(enc & seq & E & El & Ei & _ & ->)]].
  - by apply gen_next_fresh_no_encoder.
  - by apply (gen_next_fresh_no_layer _ _ enc).
  - by apply (gen_next_fresh_not_iterable _ _ enc seq).
Qed.

(** X10.  [iter_layers()] itself never fails (calling a generator function
    runs nothing); a model without an [encoder], or whose encoder has no
    [layer], makes the first [next] raise [AttributeError], and a [layer]
    that is neither a sequence nor a string makes it raise [TypeError].  In
    [init_adapters] these exceptions surface after the
    inherited initialization has run, and no hook is registered. *)
Theorem iter_layers_errors
    (super : Value → Value → Ext unit) (config self : Value)
    (h h1 : Heap) (t : list Event) (e : Error) (fuel : nat) :
  0 < fuel →
  super self config h = Ok tt h1 →
  ((lookup_attr h1 self "encoder" = None ∧ e = AttributeError) ∨
   (∃ enc, lookup_attr h1 self "encoder" = Some enc ∧
           lookup_attr h1 enc "layer" = None ∧ e = AttributeError) ∨
   (∃ enc seq, lookup_attr h1 self "encoder" = Some enc ∧
               lookup_attr h1 enc "layer" = Some seq ∧
               lookup_items h1 seq = None ∧ (∀ x, seq ≠ VStr x) ∧
               e = TypeError)) →
  collect fuel (BertModelAdaptersMixin.iter_layers self) (mkState h1 t) =
    Raise e (mkState h1 t) ∧
  BertModelAdaptersMixin.init_adapters super fuel self config (mkState h t) =
    Raise e (mkState h1 (t ++ [EvCall "super().init_adapters" [self; config]])).
Proof.
  intros Hf Hs He. destruct fuel as [|fuel]; [lia|]. split.
  - cbn [collect]. unfold BertModelAdaptersMixin.iter_layers.
    by apply bind_Raise, layers_error_gen_next.
  - unfold BertModelAdaptersMixin.init_adapters.
    rewrite (bind_Ok _ _ _ _ _ (call_Ok _ _ _ (mkState h t) _ _ Hs)).
    cbn [heap trace for_each]. unfold BertModelAdaptersMixin.iter_layers.
    by apply bind_Raise, layers_error_gen_next.
Qed.

Lemma register_Raise s x hk :
  lookup_hooks (heap s) x = None →
  register_forward_pre_hook x hk s = Raise AttributeError s.
Proof.
  intros E. destruct x as [| | | |l]; try done.
  unfold register_forward_pre_hook. simpl in E.
  destruct (heap s !! l) as [o|]; simpl in E; [|done]. by rewrite E.
Qed.

Lemma add_hook_at_hooks_None hk h x y :
  lookup_hooks h y = None → lookup_hooks (add_hook_at hk h x) y = None.
Proof.
  intros E. destruct (decide (x = y)) as [->|Hne].
  - by rewrite add_hook_at_hooks_eq, E.
  - by rewrite add_hook_at_hooks_ne.
Qed.

(** The loop stops at the first entry that is not a module: the entries
    before it have their hook, the exception leaves the loop. *)
Lemma for_each_enum_register_fail self seq xs bad post :
  ∀ pre i fuel s,
    lookup_items (heap s) seq = Some xs →
    drop i xs = pre ++ bad :: post →
    (∀ x, x ∈ pre → is_Some (lookup_hooks (heap s) x)) →
    lookup_hooks (heap s) bad = None →
    length pre < fuel →
    for_each fuel (GenEnum seq i)
      (λ x, BertModelAdaptersMixin._set_layer_hook_for_parallel self (snd x)) s =
    Raise AttributeError
      (mkState (add_hooks ParallelHook pre (heap s))
               (trace s ++ register_events pre)).
Proof.
  induction pre as [|x pre IH]; intros i fuel s E Hd Hm Hbad Hf;
    (destruct fuel as [|fuel]; [simpl in Hf; lia|]); cbn [for_each gen_next];
    apply drop_cons_lookup in Hd as [Hx Hd];
    rewrite (bind_Ok _ _ _ _ _ (enum_step_Some _ _ _ _ _ E Hx));
    unfold BertModelAdaptersMixin._set_layer_hook_for_parallel at 1; cbn [snd].
  - rewrite (bind_Raise _ _ _ _ _ (register_Raise _ _ _ Hbad)).
    unfold register_events. simpl. rewrite app_nil_r. by destruct s.
  - rewrite (bind_Ok _ _ _ _ _ (register_Ok _ _ _ (Hm x (list_elem_of_here _ _)))).
    rewrite (IH (S i) fuel); cbn [heap trace].
    + unfold register_events. simpl. by rewrite <- app_assoc.
    + by rewrite add_hook_at_items.
    + done.
    + intros y Hy. apply add_hook_at_is_module, Hm. by apply list_elem_of_further.
    + by apply add_hook_at_hooks_None.
    + simpl in Hf. lia.
Qed.

Lemma add_hooks_hooks_count hk xs h y :
  lookup_hooks (add_hooks hk xs h) y =
  (λ hs, hs ++ replicate (count_occ Value_eq_dec xs y) hk) <$> lookup_hooks h y.
Proof.
  revert h. induction xs as [|x xs IH]; intros h.
  - simpl. destruct (lookup_hooks h y); simpl; [|done]. by rewrite app_nil_r.
  - unfold add_hooks in *. simpl. rewrite IH.
    destruct (Value_eq_dec x y) as [->|Hne].
    + rewrite add_hook_at_hooks_eq.
      destruct (lookup_hooks h y); simpl; [|done]. by rewrite <- app_assoc.
    + by rewrite add_hook_at_hooks_ne.
Qed.

(** X11.  When an entry of [self.encoder.layer] is not a module,
    [init_adapters] raises [AttributeError] at that entry and keeps what it
    has done: the inherited initialization has run, and every module carries
    the hooks it had followed by one alignment hook per occurrence of the
    module among the entries before the offending one; the entries after it
    are not reached. *)
Theorem model_init_partial_registration
    (super : Value → Value → Ext unit) (config self bad : Value)
    (h h1 : Heap) (t : list Event) (pre post : list Value) (fuel : nat) :
  super self config h = Ok tt h1 →
  layers_of h1 self = Some (pre ++ bad :: post) →
  Forall (is_module h1) pre →
  lookup_hooks h1 bad = None →
  length pre < fuel →
  ∃ s',
    BertModelAdaptersMixin.init_adapters super fuel self config (mkState h t) =
      Raise AttributeError s' ∧
    trace s' = t ++ EvCall "super().init_adapters" [self; config] :: register_events pre ∧
    (∀ y hs, lookup_hooks h1 y = Some hs →
       lookup_hooks (heap s') y =
         Some (hs ++ replicate (count_occ Value_eq_dec pre y) ParallelHook)).
Proof.
  intros Hs (enc & seq & He & Hl & Hi)%layers_of_Some Hm Hbad Hf.
  unfold is_module in Hm. rewrite Forall_forall in Hm.
  eexists. split.
  { unfold BertModelAdaptersMixin.init_adapters.
    rewrite (bind_Ok _ _ _ _ _ (call_Ok _ _ _ (mkState h t) _ _ Hs)).
    cbn [heap trace]. unfold BertModelAdaptersMixin.iter_layers.
    rewrite (for_each_fresh _ self enc seq) by done.
    by apply (for_each_enum_register_fail self seq (pre ++ bad :: post) bad post pre 0). }
  cbn [heap trace]. split; [by rewrite <- app_assoc|].
  intros y hs Hy. by rewrite add_hooks_hooks_count, Hy.
Qed.

(** X12.  Without assuming the layers distinct: after one call of
    [init_adapters] every module of the store carries the hooks it had when
    the inherited initialization returned, followed by one alignment hook
    per occurrence of the module in [self.encoder.layer].  A layer shared
    between two positions gets two hooks; a module outside the list gets
    none; no hook is ever removed. *)
Theorem model_init_hooks_per_occurrence
    (super : Value → Value → Ext unit) (config self : Value)
    (h h1 : Heap) (t : list Event) (xs : list Value) (fuel : nat) :
  super self config h = Ok tt h1 →
  layers_of h1 self = Some xs →
  Forall (is_module h1) xs →
  length xs < fuel →
  ∃ s',
    BertModelAdaptersMixin.init_adapters super fuel self config (mkState h t) = Ok tt s' ∧
    ∀ y hs, lookup_hooks h1 y = Some hs →
      lookup_hooks (heap s') y =
        Some (hs ++ replicate (count_occ Value_eq_dec xs y) ParallelHook).
Proof.
  intros Hs Hl Hm Hf. unfold is_module in Hm. rewrite Forall_forall in Hm.
  eexists. split.
  { by apply (model_init_run super config self h t h1 xs). }
  cbn [heap]. intros y hs Hy. by rewrite add_hooks_hooks_count, Hy.
Qed.

(** X13.  Beyond what the inherited initialization does, [init_adapters]
    writes no attribute and no item sequence and removes nothing: every
    object of the store the inherited initialization returned is still
    there, with the class, the attributes and the items it had. *)
Theorem model_init_frame
    (super : Value → Value → Ext unit) (config self : Value)
    (h h1 : Heap) (t : list Event) (xs : list Value) (fuel : nat) :
  super self config h = Ok tt h1 →
  layers_of h1 self = Some xs →
  Forall (is_module h1) xs →
  length xs < fuel →
  ∃ s',
    BertModelAdaptersMixin.init_adapters super fuel self config (mkState h t) = Ok tt s' ∧
    (∀ v n, lookup_attr (heap s') v n = lookup_attr h1 v n) ∧
    (∀ v, lookup_items (heap s') v = lookup_items h1 v) ∧
    (∀ l o, h1 !! l = Some o →
       ∃ o', heap s' !! l = Some o' ∧ cls o' = cls o ∧ attrs o' = attrs o ∧
             items o' = items o).
Proof.
  intros Hs Hl Hm Hf. unfold is_module in Hm. rewrite Forall_forall in Hm.
  eexists. split.
  { by apply (model_init_run super config self h t h1 xs). }
  cbn [heap].
  split; [intros v n; apply add_hooks_attr|].
  split; [intros v; apply add_hooks_items|].
  clear. revert h1. induction xs as [|x xs IH]; intros h1 l o Ho; [by exists o|].
  unfold add_hooks in *. simpl.
  assert (Hstep : ∃ o1, add_hook_at ParallelHook h1 x !! l = Some o1 ∧
                        cls o1 = cls o ∧ attrs o1 = attrs o ∧ items o1 = items o).
  { destruct x as [| | | |lx]; try by exists o. unfold add_hook_at.
    destruct (h1 !! lx) as [ox|] eqn:Ex; [|by exists o].
    destruct (decide (lx = l)) as [->|Hne].
    - rewrite lookup_insert_eq. eexists. split; [done|].
      rewrite Ho in Ex. by injection Ex as ->.
    - rewrite lookup_insert_ne by done. by exists o. }
  destruct Hstep as (o1 & Ho1 & Hc1 & Ha1 & Hi1).
  destruct (IH _ l o1 Ho1) as (o' & Ho' & Hc' & Ha' & Hi').
  exists o'. split; [done|]. split; [congruence|]. split; congruence.
Qed.

(** ** The hook: exceptions *)

Lemma getitem_TypeError s v i :
  lookup_items (heap s) v = None → getitem v i s = Raise TypeError s.
Proof. intros E. unfold getitem. by rewrite E. Qed.

(** X14.  The hook raises before it adjusts anything when its input is too
    short or cannot be indexed: [IndexError] on a sequence with fewer than
    two elements, [TypeError] on [None], a number or an object that is not a
    sequence (a string, which Python indexes, is not covered).  In both
    cases [adjust_tensors_for_parallel_] is never called and the state is
    exactly as it was. *)
Theorem hook_raises_before_adjusting
    (adjust : Value → Value → Ext unit) (module input : Value) (s : State)
    (e : Error) :
  ((∃ xs, lookup_items (heap s) input = Some xs ∧ length xs < 2 ∧ e = IndexError) ∨
   (lookup_items (heap s) input = None ∧ (∀ x, input ≠ VStr x) ∧ e = TypeError)) →
  BertModelAdaptersMixin.hook adjust module input s = Raise e s.
Proof.
  intros [(xs & Hi & Hlen & ->)|(Hi & _ & ->)].
  - by apply (hook_short_tuple_IndexError adjust module input xs).
  - unfold BertModelAdaptersMixin.hook.
    by apply bind_Raise, getitem_TypeError.
Qed.

(** X15.  The hook does not catch what [adjust_tensors_for_parallel_]
    raises: the exception leaves the hook, with the store as the adjustment
    left it, and the input tuple is not returned. *)
Theorem hook_propagates_adjust_exception
    (adjust : Value → Value → Ext unit) (module input a b : Value)
    (xs : list Value) (h h' : Heap) (t : list Event) (e : Error) :
  lookup_items h input = Some xs →
  xs !! 0 = Some a →
  xs !! 1 = Some b →
  adjust a b h = Raise e h' →
  BertModelAdaptersMixin.hook adjust module input (mkState h t) =
    Raise e (mkState h' (t ++ [EvCall "adjust_tensors_for_parallel_" [a; b]])).
Proof.
  intros Hi Ha Hb Hadj. unfold BertModelAdaptersMixin.hook.
  rewrite (bind_Ok _ _ _ _ _ (getitem_Ok (mkState h t) _ _ _ _ Hi Ha)).
  rewrite (bind_Ok _ _ _ _ _ (getitem_Ok (mkState h t) _ _ _ _ Hi Hb)).
  by rewrite (bind_Raise _ _ _ _ _ (call_Raise _ _ _ (mkState h t) _ _ Hadj)).
Qed.

(** ** [BertModelAdaptersMixin.hook_after_embeddings] *)

(** X16.  [hook_after_embeddings(hook_fn)] registers on [self.embeddings],
    not on the model: it hands [hook_fn] to the embeddings module's
    [register_forward_hook], once, and returns the handle it got back
    unchanged; what the registration raises is passed on; and on a model
    without an [embeddings] attribute it raises [AttributeError] before any
    registration is attempted. *)
Theorem hook_after_embeddings_passthrough
    (register : Value → Value → Ext Value) (self hook_fn emb handle : Value)
    (h h' : Heap) (t : list Event) :
  lookup_attr h self "embeddings" = Some emb →
  register emb hook_fn h = Ok handle h' →
  BertModelAdaptersMixin_embeddings.hook_after_embeddings register self hook_fn
    (mkState h t) =
    Ok handle (mkState h' (t ++ [EvCall "register_forward_hook" [emb; hook_fn]])) ∧
  (∀ h0 t0 e h1,
     lookup_attr h0 self "embeddings" = Some emb →
     register emb hook_fn h0 = Raise e h1 →
     BertModelAdaptersMixin_embeddings.hook_after_embeddings register self hook_fn
       (mkState h0 t0) =
       Raise e (mkState h1 (t0 ++ [EvCall "register_forward_hook" [emb; hook_fn]]))) ∧
  (∀ h0 t0,
     lookup_attr h0 self "embeddings" = None →
     BertModelAdaptersMixin_embeddings.hook_after_embeddings register self hook_fn
       (mkState h0 t0) = Raise AttributeError (mkState h0 t0)).
Proof.
  intros He Hr. unfold BertModelAdaptersMixin_embeddings.hook_after_embeddings.
  split; [|split].
  - rewrite (bind_Ok _ _ _ _ _ (getattr_Ok (mkState h t) _ _ _ He)).
    by apply call_Ok.
  - intros h0 t0 e h1 He0 Hr0.
    rewrite (bind_Ok _ _ _ _ _ (getattr_Ok (mkState h0 t0) _ _ _ He0)).
    by apply call_Raise.
  - intros h0 t0 He0. by apply bind_Raise, getattr_Raise.
Qed.

(** ** The further statements at concrete stores *)

Lemma self_attention_init_missing_location_key_example :
  ∃ s' q' k' v',
    BertSelfAttentionAdaptersMixin.init_adapters (VRef 1) (VRef 5)
      (mkState attention_store_without_key []) = Raise AttributeError s' ∧
    trace s' = [] ++ qkv_wrap_events (VRef 2) (VRef 3) (VRef 4) (VRef 5) ∧
    lookup_attr (heap s') (VRef 1) "prefix_tuning" =
      lookup_attr attention_store_without_key (VRef 1) "prefix_tuning" ∧
    lookup_attr (heap s') (VRef 1) "query" = Some q' ∧
    lookup_attr (heap s') (VRef 1) "key" = Some k' ∧
    lookup_attr (heap s') (VRef 1) "value" = Some v' ∧
    is_wrap_of attention_store_without_key (heap s') (VRef 2) "selfattn" (VRef 5)
      (VStr "q") q' ∧
    is_wrap_of attention_store_without_key (heap s') (VRef 3) "selfattn" (VRef 5)
      (VStr "k") k' ∧
    is_wrap_of attention_store_without_key (heap s') (VRef 4) "selfattn" (VRef 5)
      (VStr "v") v'.
Proof.
  apply (self_attention_init_missing_location_key (VRef 5) attention_store_without_key
           [] (VRef 1) (VRef 2) (VRef 3) (VRef 4)).
  - reflexivity.
  - reflexivity.
  - reflexivity.
  - split; eexists; reflexivity.
  - split; eexists; reflexivity.
  - split; eexists; reflexivity.
  - reflexivity.
Defined.

Lemma self_attention_init_non_string_key_example :
  ∃ s' q' k' v',
    BertSelfAttentionAdaptersMixin.init_adapters (VRef 1) (VRef 5)
      (mkState (attention_store (VInt 3)) []) = Raise TypeError s' ∧
    trace s' = [] ++ qkv_wrap_events (VRef 2) (VRef 3) (VRef 4) (VRef 5) ∧
    lookup_attr (heap s') (VRef 1) "prefix_tuning" =
      lookup_attr (attention_store (VInt 3)) (VRef 1) "prefix_tuning" ∧
    lookup_attr (heap s') (VRef 1) "query" = Some q' ∧
    lookup_attr (heap s') (VRef 1) "key" = Some k' ∧
    lookup_attr (heap s') (VRef 1) "value" = Some v' ∧
    is_wrap_of (attention_store (VInt 3)) (heap s') (VRef 2) "selfattn" (VRef 5)
      (VStr "q") q' ∧
    is_wrap_of (attention_store (VInt 3)) (heap s') (VRef 3) "selfattn" (VRef 5)
      (VStr "k") k' ∧
    is_wrap_of (attention_store (VInt 3)) (heap s') (VRef 4) "selfattn" (VRef 5)
      (VStr "v") v'.
Proof.
  apply (self_attention_init_non_string_key (VRef 5) (attention_store (VInt 3))
           [] (VRef 1) (VRef 2) (VRef 3) (VRef 4) (VInt 3)).
  - reflexivity.
  - reflexivity.
  - reflexivity.
  - split; eexists; reflexivity.
  - split; eexists; reflexivity.
  - split; eexists; reflexivity.
  - reflexivity.
  - right. exists 3%Z. split; [reflexivity|lia].
Defined.

Lemma self_attention_init_twice_example :
  ∃ s1 s2 q1 k1 v1 q2 k2 v2 p1 p2,
    BertSelfAttentionAdaptersMixin.init_adapters (VRef 1) (VRef 5)
      (mkState (attention_store (VStr "self")) []) = Ok tt s1 ∧
    BertSelfAttentionAdaptersMixin.init_adapters (VRef 1) (VRef 5) s1 = Ok tt s2 ∧
    lookup_attr (heap s1) (VRef 1) "query" = Some q1 ∧
    lookup_attr (heap s1) (VRef 1) "key" = Some k1 ∧
    lookup_attr (heap s1) (VRef 1) "value" = Some v1 ∧
    lookup_attr (heap s2) (VRef 1) "query" = Some q2 ∧
    lookup_attr (heap s2) (VRef 1) "key" = Some k2 ∧
    lookup_attr (heap s2) (VRef 1) "value" = Some v2 ∧
    is_wrap_of (heap s1) (heap s2) q1 "selfattn" (VRef 5) (VStr "q") q2 ∧
    is_wrap_of (heap s1) (heap s2) k1 "selfattn" (VRef 5) (VStr "k") k2 ∧
    is_wrap_of (heap s1) (heap s2) v1 "selfattn" (VRef 5) (VStr "v") v2 ∧
    lookup_attr (heap s2) q2 "in_features" =
      lookup_attr (attention_store (VStr "self")) (VRef 2) "in_features" ∧
    lookup_attr (heap s2) q2 "out_features" =
      lookup_attr (attention_store (VStr "self")) (VRef 2) "out_features" ∧
    lookup_attr (heap s2) k2 "in_features" =
      lookup_attr (attention_store (VStr "self")) (VRef 3) "in_features" ∧
    lookup_attr (heap s2) k2 "out_features" =
      lookup_attr (attention_store (VStr "self")) (VRef 3) "out_features" ∧
    lookup_attr (heap s2) v2 "in_features" =
      lookup_attr (attention_store (VStr "self")) (VRef 4) "in_features" ∧
    lookup_attr (heap s2) v2 "out_features" =
      lookup_attr (attention_store (VStr "self")) (VRef 4) "out_features" ∧
    lookup_attr (heap s1) (VRef 1) "prefix_tuning" = Some (VRef p1) ∧
    lookup_attr (heap s2) (VRef 1) "prefix_tuning" = Some (VRef p2) ∧
    p1 ≠ p2 ∧
    length (trace s2) = length (@nil Event) + 8.
Proof.
  apply (self_attention_init_twice (VRef 5) (attention_store (VStr "self")) []
           (VRef 1) (VRef 2) (VRef 3) (VRef 4) (VStr "self")).
  - reflexivity.
  - reflexivity.
  - reflexivity.
  - split; eexists; reflexivity.
  - split; eexists; reflexivity.
  - split; eexists; reflexivity.
  - reflexivity.
  - right. eexists. reflexivity.
Defined.

Lemma layer_init_wraps_dense_example :
  ∃ s' d' e',
    BertLayerAdaptersMixin.init_adapters (VRef 1) (VRef 10)
      (mkState (layer_store (VBool true)) []) = Ok tt s' ∧
    trace s' = [] ++ dense_wrap_events (VRef 8) (VRef 9) (VRef 10) ∧
    lookup_attr (heap s') (VRef 1) "intermediate" = Some (VRef 2) ∧
    lookup_attr (heap s') (VRef 1) "output" = Some (VRef 3) ∧
    lookup_attr (heap s') (VRef 2) "dense" = Some d' ∧
    lookup_attr (heap s') (VRef 3) "dense" = Some e' ∧
    is_wrap_of (layer_store (VBool true)) (heap s') (VRef 8) "intermediate"
      (VRef 10) VNone d' ∧
    is_wrap_of (layer_store (VBool true)) (heap s') (VRef 9) "output"
      (VRef 10) VNone e'.
Proof.
  apply (layer_init_wraps_dense (VRef 10) (layer_store (VBool true)) []
           (VRef 1) (VRef 8) (VRef 9) (VRef 4) (VBool true) 2 3 5 (Some 7)).
  - reflexivity.
  - reflexivity.
  - split; eexists; reflexivity.
  - reflexivity.
  - reflexivity.
  - split; eexists; reflexivity.
  - lia.
  - reflexivity.
  - reflexivity.
  - eexists; reflexivity.
  - reflexivity.
  - exists (VRef 6), 7.
    split; [reflexivity|]. split; [reflexivity|]. split; [reflexivity|].
    eexists; reflexivity.
Defined.

Lemma layer_init_missing_crossattention_example :
  ∃ s' d' e',
    BertLayerAdaptersMixin.init_adapters (VRef 1) (VRef 10)
      (mkState layer_store_without_cross []) = Raise AttributeError s' ∧
    trace s' = [] ++ dense_wrap_events (VRef 8) (VRef 9) (VRef 10) ∧
    lookup_attr (heap s') (VRef 5) "location_key" = Some (VStr "self") ∧
    lookup_attr (heap s') (VRef 2) "dense" = Some d' ∧
    lookup_attr (heap s') (VRef 3) "dense" = Some e' ∧
    is_wrap_of layer_store_without_cross (heap s') (VRef 8) "intermediate"
      (VRef 10) VNone d' ∧
    is_wrap_of layer_store_without_cross (heap s') (VRef 9) "output"
      (VRef 10) VNone e'.
Proof.
  apply (layer_init_missing_crossattention (VRef 10) layer_store_without_cross []
           (VRef 1) (VRef 8) (VRef 9) (VRef 4) 2 3 5).
  - reflexivity.
  - reflexivity.
  - split; eexists; reflexivity.
  - reflexivity.
  - reflexivity.
  - split; eexists; reflexivity.
  - lia.
  - reflexivity.
  - reflexivity.
  - eexists; reflexivity.
  - reflexivity.
  - reflexivity.
Defined.


Lemma output_mixins_delegate_raises_example :
  BertSelfOutputAdaptersMixin.init_adapters (failing "init") (VRef 1) (VRef 2)
    (mkState output_store []) =
    Raise (ExternalError "init")
      (mkState (store_attr 1 "location_key" (VStr "mh_adapter") output_store)
               ([] ++ [EvCall "AdapterLayer.init_adapters" [VRef 1; VRef 2]])) ∧
  BertOutputAdaptersMixin.init_adapters (failing "init") (VRef 1) (VRef 2)
    (mkState output_store []) =
    Raise (ExternalError "init")
      (mkState (store_attr 1 "location_key" (VStr "output_adapter") output_store)
               ([] ++ [EvCall "AdapterLayer.init_adapters" [VRef 1; VRef 2]])) ∧
  lookup_attr (store_attr 1 "location_key" (VStr "mh_adapter") output_store) (VRef 1)
    "location_key" = Some (VStr "mh_adapter") ∧
  lookup_attr (store_attr 1 "location_key" (VStr "output_adapter") output_store) (VRef 1)
    "location_key" = Some (VStr "output_adapter").
Proof.
  apply (output_mixins_delegate_raises (failing "init") (VRef 2) 1 output_store).
  - eexists; reflexivity.
  - reflexivity.
  - reflexivity.
Defined.

Lemma iter_layers_errors_example :
  collect 1 (BertModelAdaptersMixin.iter_layers (VRef 1))
    (mkState output_store_configured []) =
    Raise AttributeError (mkState output_store_configured []) ∧
  BertModelAdaptersMixin.init_adapters store_config 1 (VRef 1) (VRef 2)
    (mkState output_store []) =
    Raise AttributeError
      (mkState output_store_configured
               ([] ++ [EvCall "super().init_adapters" [VRef 1; VRef 2]])).
Proof.
  apply (iter_layers_errors store_config (VRef 2) (VRef 1) output_store
           output_store_configured [] AttributeError 1).
  - lia.
  - vm_compute. reflexivity.
  - left. split; reflexivity.
Defined.

Lemma model_init_partial_registration_example :
  ∃ s',
    BertModelAdaptersMixin.init_adapters store_config 3 (VRef 1) (VRef 6)
      (mkState (model_store_of [VRef 4; VRef 6; VRef 5]) []) =
      Raise AttributeError s' ∧
    trace s' = [] ++ EvCall "super().init_adapters" [VRef 1; VRef 6]
                       :: register_events [VRef 4] ∧
    (∀ y hs,
       lookup_hooks (model_store_of_configured [VRef 4; VRef 6; VRef 5]) y = Some hs →
       lookup_hooks (heap s') y =
         Some (hs ++ replicate (count_occ Value_eq_dec [VRef 4] y) ParallelHook)).
Proof.
  apply (model_init_partial_registration store_config (VRef 6) (VRef 1) (VRef 6)
           (model_store_of [VRef 4; VRef 6; VRef 5])
           (model_store_of_configured [VRef 4; VRef 6; VRef 5]) []
           [VRef 4] [VRef 5] 3).
  - vm_compute. reflexivity.
  - reflexivity.
  - repeat (constructor; [eexists; reflexivity|]). constructor.
  - reflexivity.
  - simpl. lia.
Defined.

Lemma model_init_hooks_per_occurrence_example :
  ∃ s',
    BertModelAdaptersMixin.init_adapters store_config 3 (VRef 1) (VRef 6)
      (mkState (model_store_of [VRef 4; VRef 4]) []) = Ok tt s' ∧
    ∀ y hs, lookup_hooks (model_store_of_configured [VRef 4; VRef 4]) y = Some hs →
      lookup_hooks (heap s') y =
        Some (hs ++ replicate (count_occ Value_eq_dec [VRef 4; VRef 4] y) ParallelHook).
Proof.
  apply (model_init_hooks_per_occurrence store_config (VRef 6) (VRef 1)
           (model_store_of [VRef 4; VRef 4])
           (model_store_of_configured [VRef 4; VRef 4]) [] [VRef 4; VRef 4] 3).
  - vm_compute. reflexivity.
  - reflexivity.
  - repeat (constructor; [eexists; reflexivity|]). constructor.
  - simpl. lia.
Defined.

Lemma model_init_frame_example :
  ∃ s',
    BertModelAdaptersMixin.init_adapters store_config 3 (VRef 1) (VRef 6)
      (mkState model_store []) = Ok tt s' ∧
    (∀ v n, lookup_attr (heap s') v n = lookup_attr model_store_configured v n) ∧
    (∀ v, lookup_items (heap s') v = lookup_items model_store_configured v) ∧
    (∀ l o, model_store_configured !! l = Some o →
       ∃ o', heap s' !! l = Some o' ∧ cls o' = cls o ∧ attrs o' = attrs o ∧
             items o' = items o).
Proof.
  apply (model_init_frame store_config (VRef 6) (VRef 1)
           model_store model_store_configured [] [VRef 4; VRef 5] 3).
  - vm_compute. reflexivity.
  - reflexivity.
  - repeat (constructor; [eexists; reflexivity|]). constructor.
  - simpl. lia.
Defined.

Lemma hook_raises_before_adjusting_example :
  BertModelAdaptersMixin.hook align_batch (VRef 1) (VRef 5) (mkState input_store []) =
    Raise IndexError (mkState input_store []).
Proof.
  apply (hook_raises_before_adjusting align_batch (VRef 1) (VRef 5)
           (mkState input_store []) IndexError).
  left. exists [VRef 3]. split; [reflexivity|]. split; [simpl; lia|reflexivity].
Defined.

Lemma hook_propagates_adjust_exception_example :
  BertModelAdaptersMixin.hook (failing "shape") (VRef 1) (VRef 2)
    (mkState input_store []) =
    Raise (ExternalError "shape")
      (mkState input_store
               ([] ++ [EvCall "adjust_tensors_for_parallel_" [VRef 3; VRef 4]])).
Proof.
  apply (hook_propagates_adjust_exception (failing "shape") (VRef 1) (VRef 2)
           (VRef 3) (VRef 4) [VRef 3; VRef 4] input_store).
  - reflexivity.
  - reflexivity.
  - reflexivity.
  - reflexivity.
Defined.

Lemma hook_after_embeddings_passthrough_example :
  BertModelAdaptersMixin_embeddings.hook_after_embeddings register_with_handle
    (VRef 1) (VRef 3) (mkState embeddings_store []) =
    Ok (VRef 4)
       (mkState (<[4 := mkObj "RemovableHandle"
                          {[ "module" := VRef 2; "hook" := VRef 3 ]} None None]>
                   embeddings_store)
                ([] ++ [EvCall "register_forward_hook" [VRef 2; VRef 3]])) ∧
  (∀ h0 t0 e h1,
     lookup_attr h0 (VRef 1) "embeddings" = Some (VRef 2) →
     register_with_handle (VRef 2) (VRef 3) h0 = Raise e h1 →
     BertModelAdaptersMixin_embeddings.hook_after_embeddings register_with_handle
       (VRef 1) (VRef 3) (mkState h0 t0) =
       Raise e (mkState h1 (t0 ++ [EvCall "register_forward_hook" [VRef 2; VRef 3]]))) ∧
  (∀ h0 t0,
     lookup_attr h0 (VRef 1) "embeddings" = None →
     BertModelAdaptersMixin_embeddings.hook_after_embeddings register_with_handle
       (VRef 1) (VRef 3) (mkState h0 t0) = Raise AttributeError (mkState h0 t0)).
Proof.
  apply (hook_after_embeddings_passthrough register_with_handle (VRef 1) (VRef 3)
           (VRef 2) (VRef 4) embeddings_store).
  - reflexivity.
  - vm_compute. reflexivity.
Defined.

(** ** A layer shared between two positions of [encoder.layer] *)

(** C6, as stated, fails when a module occurs twice in
    [self.encoder.layer]: [iter_layers()] yields it at both positions and a
    single [init_adapters] call registers the alignment hook on it twice.
    Here the layer at 4 fills both positions, carried no alignment hook
    before the call, and carries two after it. *)
Lemma model_init_shared_layer_two_hooks :
  alignment_hooks (model_store_of [VRef 4; VRef 4]) (VRef 4) = 0 ∧
  ∃ s',
    BertModelAdaptersMixin.init_adapters store_config 3 (VRef 1) (VRef 6)
      (mkState (model_store_of [VRef 4; VRef 4]) []) = Ok tt s' ∧
    collect 3 (BertModelAdaptersMixin.iter_layers (VRef 1)) s' =
      Ok [(0, VRef 4); (1, VRef 4)] s' ∧
    lookup_hooks (heap s') (VRef 4) =
      Some [ForeignHook 0; ParallelHook; ParallelHook] ∧
    alignment_hooks (heap s') (VRef 4) = 2 ∧
    alignment_hooks (heap s') (VRef 4) ≠ 1.
Proof.
  split; [reflexivity|].
  exists (mkState
            (add_hooks ParallelHook [VRef 4; VRef 4]
               (model_store_of_configured [VRef 4; VRef 4]))
            [EvCall "super().init_adapters" [VRef 1; VRef 6];
             EvRegisterPreHook (VRef 4) ParallelHook;
             EvRegisterPreHook (VRef 4) ParallelHook]).
  split; [vm_compute; reflexivity|].
  split; [vm_compute; reflexivity|].
  split; [vm_compute; reflexivity|].
  split; [vm_compute; reflexivity|].
  vm_compute. discriminate.
Qed.

(** C10, as stated, fails on the same model: after two calls of
    [init_adapters] the layer that fills both positions carries four
    alignment hooks, not two. *)
Lemma model_init_twice_shared_layer_four_hooks :
  alignment_hooks (model_store_of [VRef 4; VRef 4]) (VRef 4) = 0 ∧
  ∃ s',
    BertModelAdaptersMixin.init_adapters_times store_config 2 3 (VRef 1) (VRef 6)
      (mkState (model_store_of [VRef 4; VRef 4]) []) = Ok tt s' ∧
    layers_of (heap s') (VRef 1) = Some [VRef 4; VRef 4] ∧
    lookup_hooks (heap s') (VRef 4) =
      Some [ForeignHook 0; ParallelHook; ParallelHook; ParallelHook; ParallelHook] ∧
    alignment_hooks (heap s') (VRef 4) = 4 ∧
    alignment_hooks (heap s') (VRef 4) ≠ 2.
Proof.
  split; [reflexivity|].
  exists (mkState
            (add_hooks ParallelHook [VRef 4; VRef 4; VRef 4; VRef 4]
               (model_store_of_configured [VRef 4; VRef 4]))
            [EvCall "super().init_adapters" [VRef 1; VRef 6];
             EvRegisterPreHook (VRef 4) ParallelHook;
             EvRegisterPreHook (VRef 4) ParallelHook;
             EvCall "super().init_adapters" [VRef 1; VRef 6];
             EvRegisterPreHook (VRef 4) ParallelHook;
             EvRegisterPreHook (VRef 4) ParallelHook]).
  split; [vm_compute; reflexivity|].
  split; [vm_compute; reflexivity|].
  split; [vm_compute; reflexivity|].
  split; [vm_compute; reflexivity|].
  vm_compute. discriminate.
Qed.
